(** * A shallow embedding of portable_spreadsheet (Cell, Spreadsheet)

    Python objects (cells and CellIndices) live in a heap addressed by
    locations, so that object identity, aliasing, [copy.deepcopy] and the
    in-place mutations of the source are visible.  Every method is a
    computation in a state-and-exception monad over that heap.  Python
    numbers used as cell values are kept abstract behind two small
    interfaces (native arithmetic, numpy reductions and ufuncs). *)

From Stdlib Require Import ZArith QArith Qabs Qminmax String List.
From stdpp Require Import base gmap list.

Open Scope Z_scope.

(** ** Python runtime basics *)

(** Exceptions raised by the modelled code.  [IncompatibleIndices] is the
    error of the (missing) WordConstructor, see [WordConstructor]. *)
Inductive pyerr :=
| TypeError
| ValueError
| IndexError
| ZeroDivisionError
| AttributeError
| IncompatibleIndices.

Inductive pyres (A : Type) :=
| Ok (a : A)
| Err (e : pyerr).
Arguments Ok {A} a.
Arguments Err {A} e.

(** A Python number used as a coordinate: an [int] or a [float]. *)
Inductive pynum :=
| PInt (z : Z)
| PFloat (q : Q).

(** [int(x)]: truncation toward zero. *)
Definition py_int (x : pynum) : Z :=
  match x with
  | PInt z => z
  | PFloat q => Z.quot (Qnum q) (Zpos (Qden q))
  end.

Definition pynum_to_Q (x : pynum) : Q :=
  match x with
  | PInt z => inject_Z z
  | PFloat q => q
  end.

(** [abs(x - int(x)) > 0.000_001] *)
Definition not_integral (x : pynum) : bool :=
  negb (Qle_bool (Qabs (pynum_to_Q x - inject_Z (py_int x))) (1 # 1000000)).

(** Python list indexing [l[i]]: an index must be an [int]; negative indices
    count from the end; anything else out of range raises [IndexError]. *)
Definition py_norm_index {A} (l : list A) (i : pynum) : pyres nat :=
  match i with
  | PFloat _ => Err TypeError
  | PInt z =>
      let n := Z.of_nat (length l) in
      if (0 <=? z) && (z <? n) then Ok (Z.to_nat z)
      else if (- n <=? z) && (z <? 0) then Ok (Z.to_nat (n + z))
      else Err IndexError
  end.

Definition py_getitem {A} (l : list A) (i : pynum) : pyres A :=
  match py_norm_index l i with
  | Err e => Err e
  | Ok k => match l !! k with Some x => Ok x | None => Err IndexError end
  end.

Definition py_setitem {A} (l : list A) (i : pynum) (x : A) : pyres (list A) :=
  match py_norm_index l i with
  | Err e => Err e
  | Ok k => Ok (<[k := x]> l)
  end.

(** ** Python numbers used as cell values *)

(** Native binary arithmetic of the value type ([+ - * / **]); each operator
    may raise (e.g. [ZeroDivisionError]). *)
Class PyArith (V : Type) := {
  py_add : V -> V -> pyres V;
  py_sub : V -> V -> pyres V;
  py_mul : V -> V -> pyres V;
  py_div : V -> V -> pyres V;
  py_pow : V -> V -> pyres V
}.

(** numpy ufuncs [np.log] and [np.exp] on a float. *)
Class NpUfunc (V : Type) := {
  np_log : V -> V;
  np_exp : V -> V
}.

(** The aggregation methods of Cell and the numpy reduction each passes. *)
Inductive aggop := AggSum | AggProduct | AggMean | AggMin | AggMax.

(** numpy reductions over a Python list of (optional) values. *)
Class NpReduce (V : Type) := {
  np_reduce : aggop -> list (option V) -> pyres (option V)
}.

(** ** The state and exception monad over the object heap *)

Definition loc := nat.

Inductive binop := OpAdd | OpSub | OpMul | OpDiv | OpPow.

(** Modelled from the spec (WordConstructor is not in the sources): a
    fragment is an immutable expression, one constructor per WordConstructor
    method; rendering in each grammar is a function of it. *)
Inductive fragment (V : Type) :=
| FConst (v : option V)
| FRef (r c : option pynum)
| FBin (op : binop) (a b : fragment V)
| FBrackets (a : fragment V)
| FLog (a : fragment V)
| FExp (a : fragment V)
| FAgg (ci : loc) (op : aggop) (start_idx end_idx : Z * Z).
Arguments FConst {V} v.
Arguments FRef {V} r c.
Arguments FBin {V} op a b.
Arguments FBrackets {V} a.
Arguments FLog {V} a.
Arguments FExp {V} a.
Arguments FAgg {V} ci op start_idx end_idx.

Inductive celltype := value_only | computational.

Record cell (V : Type) := mkCell {
  row : option pynum;
  column : option pynum;
  _value : option V;
  cell_type : celltype;
  cell_indices : loc;
  _constructing_words : fragment V
}.
Arguments mkCell {V} row column _value cell_type cell_indices _constructing_words.
Arguments row {V} c.
Arguments column {V} c.
Arguments _value {V} c.
Arguments cell_type {V} c.
Arguments cell_indices {V} c.
Arguments _constructing_words {V} c.

(** A CellIndices object: its shape and its label sequences. *)
Record cellindices := mkCellIndices {
  ci_rows : nat;
  ci_cols : nat;
  ci_rows_labels : list string;
  ci_columns_labels : list string
}.

Record heap (V : Type) := mkHeap {
  h_cells : gmap loc (cell V);
  h_cis : gmap loc cellindices
}.
Arguments mkHeap {V} h_cells h_cis.
Arguments h_cells {V} h.
Arguments h_cis {V} h.

Definition M (V A : Type) := heap V -> pyres (A * heap V).

Definition ret {V A} (a : A) : M V A := fun h => Ok (a, h).
Definition raise {V A} (e : pyerr) : M V A := fun _ => Err e.
Definition bind {V A B} (m : M V A) (k : A -> M V B) : M V B :=
  fun h => match m h with Ok (a, h') => k a h' | Err e => Err e end.
Definition lift {V A} (r : pyres A) : M V A :=
  fun h => match r with Ok a => Ok (a, h) | Err e => Err e end.

Notation "'do' x <- m ; k" := (bind m (fun x => k))
  (at level 200, x name, m at level 100, k at level 200).
Notation "'do_' m ; k" := (bind m (fun _ => k))
  (at level 200, m at level 100, k at level 200).

Section HeapOps.
Context {V : Type}.

(** Attribute access on a dangling reference stands for [None.attr]. *)
Definition get_cell (l : loc) : M V (cell V) :=
  fun h => match h_cells h !! l with
           | Some c => Ok (c, h) | None => Err AttributeError end.

Definition put_cell (l : loc) (c : cell V) : M V unit :=
  fun h => Ok (tt, mkHeap (<[l := c]> (h_cells h)) (h_cis h)).

(** Object creation: a location not used by any live cell. *)
Definition alloc_cell (c : cell V) : M V loc :=
  fun h => let l := fresh (dom (h_cells h)) in
           Ok (l, mkHeap (<[l := c]> (h_cells h)) (h_cis h)).

Definition get_ci (l : loc) : M V cellindices :=
  fun h => match h_cis h !! l with
           | Some c => Ok (c, h) | None => Err AttributeError end.

Definition alloc_ci (c : cellindices) : M V loc :=
  fun h => let l := fresh (dom (h_cis h)) in
           Ok (l, mkHeap (h_cells h) (<[l := c]> (h_cis h))).

(** [copy.deepcopy] of a CellIndices object. *)
Definition deepcopy_ci (l : loc) : M V loc :=
  do c <- get_ci l ; alloc_ci c.

(** [copy.deepcopy] of a Cell: the record is copied and the CellIndices it
    points to is deep-copied along with it. *)
Definition deepcopy_cell (l : loc) : M V loc :=
  do c <- get_cell l ;
  do ci' <- deepcopy_ci (cell_indices c) ;
  alloc_cell (mkCell (row c) (column c) (_value c) (cell_type c) ci'
                     (_constructing_words c)).

(** A [for] loop that collects its results. *)
Fixpoint mapM {A B} (f : A -> M V B) (xs : list A) : M V (list B) :=
  match xs with
  | [] => ret []
  | x :: xs' => do y <- f x ; do ys <- mapM f xs' ; ret (y :: ys)
  end.

(** A [for] loop that threads a value. *)
Fixpoint foldM {A B} (f : B -> A -> M V B) (acc : B) (xs : list A) : M V B :=
  match xs with
  | [] => ret acc
  | x :: xs' => do acc' <- f acc x ; foldM f acc' xs'
  end.

End HeapOps.

(** ** WordConstructor and Cell *)

Section CellModel.
Context {V : Type}.

(** [Cell.anchored]: [self.row is not None]. *)
Definition Cell_anchored (c : cell V) : bool :=
  match row c with Some _ => true | None => false end.

(** [Cell.value] *)
Definition Cell_value (c : cell V) : option V := _value c.

(** Modelled from the spec (WordConstructor is not in the sources, 4.1):
    a reference fragment is the coordinate label of the referenced cell. *)
Definition WordConstructor_reference (c : cell V) : fragment V :=
  FRef (row c) (column c).

(** Modelled from the spec (WordConstructor is not in the sources, 4.1):
    a constant fragment is the literal value. *)
Definition WordConstructor_constant (c : cell V) : fragment V :=
  FConst (_value c).

(** Modelled from the spec (WordConstructor is not in the sources, 4.2):
    without explicit words, a cell gets a coordinate fragment when it is
    anchored and valueless, otherwise a constant fragment. *)
Definition WordConstructor_init_from_new_cell (c : cell V) : fragment V :=
  match row c, _value c with
  | Some _, None => WordConstructor_reference c
  | _, _ => WordConstructor_constant c
  end.

(** [Cell.word] *)
Definition Cell_word (c : cell V) : fragment V :=
  if Cell_anchored c then WordConstructor_reference c
  else match cell_type c with
       | computational => _constructing_words c
       | value_only => WordConstructor_constant c
       end.

(** Modelled from the spec (WordConstructor is not in the sources, 4.1):
    a binary operation joins the exposed words of its operands and fails
    with [IncompatibleIndices] when their CellIndices objects differ. *)
Definition WordConstructor_binary (op : binop) (a b : cell V)
  : pyres (fragment V) :=
  if Nat.eqb (cell_indices a) (cell_indices b)
  then Ok (FBin op (Cell_word a) (Cell_word b))
  else Err IncompatibleIndices.

(** Modelled from the spec (WordConstructor is not in the sources, 4.1). *)
Definition WordConstructor_brackets (a : cell V) : fragment V :=
  FBrackets (Cell_word a).

(** Modelled from the spec (WordConstructor is not in the sources, 4.1):
    the numeric wrappers wrap the operand's word in a function call. *)
Definition WordConstructor_logarithm (a : cell V) : fragment V :=
  FLog (Cell_word a).

(** Modelled from the spec (WordConstructor is not in the sources, 4.1). *)
Definition WordConstructor_exponential (a : cell V) : fragment V :=
  FExp (Cell_word a).

(** Modelled from the spec (WordConstructor is not in the sources, 4.2):
    [first._constructing_words.aggregation(start, end, method)] is an
    aggregation fragment over the first member's CellIndices. *)
Definition WordConstructor_aggregation (first : cell V) (start_idx end_idx : Z * Z)
  (op : aggop) : fragment V :=
  FAgg (cell_indices first) op start_idx end_idx.

(** [Cell.__init__(row, column, value, cell_indices=, cell_type=, words=)]:
    the new object is allocated in the heap. *)
Definition Cell_new (r c : option pynum) (value : option V) (ci : loc)
  (ct : celltype) (words : option (fragment V)) : M V loc :=
  match r, c with
  | Some _, None | None, Some _ => raise ValueError
  | _, _ =>
      let c0 := mkCell r c value ct ci (FConst None) in
      let w := match words with
               | Some w => w
               | None => WordConstructor_init_from_new_cell c0
               end in
      alloc_cell (mkCell r c value ct ci w)
  end.

(** Python's binary operator on two [Optional[float]]: [None] raises. *)
Definition py_binop `{PyArith V} (op : binop) (x y : option V) : pyres V :=
  match x, y with
  | Some a, Some b =>
      match op with
      | OpAdd => py_add a b | OpSub => py_sub a b | OpMul => py_mul a b
      | OpDiv => py_div a b | OpPow => py_pow a b
      end
  | _, _ => Err TypeError
  end.

(** The common body of [Cell.add], [subtract], [multiply], [divide] and
    [power]: the keyword arguments of [Cell(...)] are evaluated in order
    ([value], then [words], then [cell_indices]). *)
Definition Cell_binary `{PyArith V} (op : binop) (self other : loc) : M V loc :=
  do a <- get_cell self ;
  do b <- get_cell other ;
  do v <- lift (py_binop op (Cell_value a) (Cell_value b)) ;
  do w <- lift (WordConstructor_binary op a b) ;
  Cell_new None None (Some v) (cell_indices b) computational (Some w).

Definition Cell_add `{PyArith V} := Cell_binary OpAdd.
Definition Cell_subtract `{PyArith V} := Cell_binary OpSub.
Definition Cell_multiply `{PyArith V} := Cell_binary OpMul.
Definition Cell_divide `{PyArith V} := Cell_binary OpDiv.
Definition Cell_power `{PyArith V} := Cell_binary OpPow.

(** [Cell.reference] *)
Definition Cell_reference (other : loc) : M V loc :=
  do b <- get_cell other ;
  if negb (Cell_anchored b) then raise ValueError
  else Cell_new None None (Cell_value b) (cell_indices b) computational
                (Some (WordConstructor_reference b)).

(** [Cell.brackets] *)
Definition Cell_brackets (other : loc) : M V loc :=
  do b <- get_cell other ;
  Cell_new None None (Cell_value b) (cell_indices b) computational
           (Some (WordConstructor_brackets b)).

(** A numpy ufunc applied to [Optional[float]]: [None] raises. *)
Definition np_unary (f : V -> V) (x : option V) : pyres (option V) :=
  match x with Some a => Ok (Some (f a)) | None => Err TypeError end.

(** [Cell.logarithm] *)
Definition Cell_logarithm `{NpUfunc V} (other : loc) : M V loc :=
  do b <- get_cell other ;
  do v <- lift (np_unary np_log (Cell_value b)) ;
  Cell_new None None v (cell_indices b) computational
           (Some (WordConstructor_logarithm b)).

(** [Cell.exponential]: as in the source, the words are built with
    [WordConstructor.logarithm]. *)
Definition Cell_exponential `{NpUfunc V} (other : loc) : M V loc :=
  do b <- get_cell other ;
  do v <- lift (np_unary np_exp (Cell_value b)) ;
  Cell_new None None v (cell_indices b) computational
           (Some (WordConstructor_logarithm b)).

Fixpoint get_cells (ls : list loc) : M V (list (cell V)) :=
  match ls with
  | [] => ret []
  | l :: ls' => do c <- get_cell l ; do cs <- get_cells ls' ; ret (c :: cs)
  end.

(** [Cell._aggregate_fun]: [value=method_np([c.value for c in subset])],
    then [subset[0].cell_indices], then the words of [subset[0]]. *)
Definition Cell__aggregate_fun `{NpReduce V} (start_idx end_idx : Z * Z)
  (subset : list loc) (op : aggop) : M V loc :=
  do cs <- get_cells subset ;
  do v <- lift (np_reduce op (map Cell_value cs)) ;
  do l0 <- lift (py_getitem subset (PInt 0)) ;
  do first <- get_cell l0 ;
  Cell_new None None v (cell_indices first) computational
           (Some (WordConstructor_aggregation first start_idx end_idx op)).

Definition Cell_sum `{NpReduce V} s e subset := Cell__aggregate_fun s e subset AggSum.
Definition Cell_product `{NpReduce V} s e subset := Cell__aggregate_fun s e subset AggProduct.
Definition Cell_mean `{NpReduce V} s e subset := Cell__aggregate_fun s e subset AggMean.
Definition Cell_min `{NpReduce V} s e subset := Cell__aggregate_fun s e subset AggMin.
Definition Cell_max `{NpReduce V} s e subset := Cell__aggregate_fun s e subset AggMax.

End CellModel.

(** ** Spreadsheet *)

Record spreadsheet := mkSpreadsheet {
  _cell_indices : loc;
  _sheet : list (list loc)
}.

(** [T_cell_val = Union[Number, Cell]] *)
Inductive cellval (V : Type) :=
| CVNumber (v : V)
| CVCell (l : loc).
Arguments CVNumber {V} v.
Arguments CVCell {V} l.

(** Modelled from the spec (CellSlice is not in the sources): a slice holds
    its inclusive start and end coordinates, the member cells captured when
    it is built, and the sheet. *)
Record cellslice := mkCellSlice {
  cs_start : Z * Z;
  cs_end : Z * Z;
  cs_cells : list loc;
  cs_sheet : spreadsheet
}.

Section SpreadsheetModel.
Context {V : Type}.

(** [Spreadsheet.shape]: the shape of [self.cell_indices]. *)
Definition Spreadsheet_shape (s : spreadsheet) : M V (nat * nat) :=
  do ci <- get_ci (_cell_indices s) ; ret (ci_rows ci, ci_cols ci).

(** [Spreadsheet._initialise_array] *)
Definition Spreadsheet__initialise_array (ci : loc) : M V (list (list loc)) :=
  do shape <- Spreadsheet_shape (mkSpreadsheet ci []) ;
  mapM (fun row_idx =>
          mapM (fun col_idx =>
                  Cell_new (Some (PInt (Z.of_nat row_idx)))
                           (Some (PInt (Z.of_nat col_idx)))
                           None ci value_only None)
               (seq 0 (snd shape)))
       (seq 0 (fst shape)).

(** [Spreadsheet.__init__]: [copy.deepcopy(cell_indices)], then the array. *)
Definition Spreadsheet___init__ (cell_indices : loc) : M V spreadsheet :=
  do ci <- deepcopy_ci cell_indices ;
  do sheet <- Spreadsheet__initialise_array ci ;
  ret (mkSpreadsheet ci sheet).

(** [Spreadsheet._set_item] *)
Definition Spreadsheet__set_item (s : spreadsheet) (value : cellval V)
  (_x _y : pynum) : M V spreadsheet :=
  if not_integral _x || not_integral _y then raise IndexError else
  do _value <-
    match value with
    | CVCell l =>
        do c <- get_cell l ;
        if Cell_anchored c then Cell_reference l
        else
          do l' <- deepcopy_cell l ;
          do c' <- get_cell l' ;
          do_ put_cell l' (mkCell (Some _x) (Some _y) (_value c') (cell_type c')
                                  (cell_indices c') (_constructing_words c')) ;
          ret l'
    | CVNumber v =>
        Cell_new (Some _x) (Some _y) (Some v) (_cell_indices s) value_only None
    end ;
  do i <- lift (py_norm_index (_sheet s) _x) ;
  do r <- lift (py_getitem (_sheet s) _x) ;
  do r' <- lift (py_setitem r _y _value) ;
  ret (mkSpreadsheet (_cell_indices s) (<[i := r']> (_sheet s))).

(** [Spreadsheet._get_item] *)
Definition Spreadsheet__get_item (s : spreadsheet) (_x _y : pynum) : M V loc :=
  if not_integral _x || not_integral _y then raise IndexError else
  do r <- lift (py_getitem (_sheet s) (PInt (py_int _x))) ;
  lift (py_getitem r (PInt (py_int _y))).

(** Modelled from the spec (the [iloc] accessor [_Location] is not in the
    sources): [self.iloc[r, c]] reads the cell through [_get_item]. *)
Definition Spreadsheet_iloc (s : spreadsheet) (r c : nat) : M V loc :=
  Spreadsheet__get_item s (PInt (Z.of_nat r)) (PInt (Z.of_nat c)).

(** [cell.cell_indices = ...] on a cell object. *)
Definition set_cell_indices (l : loc) (ci : loc) : M V unit :=
  do c <- get_cell l ;
  put_cell l (mkCell (row c) (column c) (_value c) (cell_type c) ci
                     (_constructing_words c)).

(** [Cell(cell_indices=self.cell_indices)] *)
Definition empty_cell (ci : loc) : M V loc :=
  Cell_new None None None ci value_only None.

(** Body of the column-expansion loop:
    [self._sheet[row_idx].append(Cell(cell_indices=self.cell_indices))]. *)
Definition expand_column_step (row_idx : nat) (s : spreadsheet) (_ : nat)
  : M V spreadsheet :=
  do r <- lift (py_getitem (_sheet s) (PInt (Z.of_nat row_idx))) ;
  do c <- empty_cell (_cell_indices s) ;
  ret (mkSpreadsheet (_cell_indices s) (<[row_idx := r ++ [c]]> (_sheet s))).

(** Body of the refresh loop:
    [self.iloc[row_idx, col_idx].cell_indices = self.cell_indices]. *)
Definition refresh_step (row_idx : nat) (s : spreadsheet) (col_idx : nat)
  : M V spreadsheet :=
  do l <- Spreadsheet_iloc s row_idx col_idx ;
  do_ set_cell_indices l (_cell_indices s) ;
  ret s.

(** One iteration of the row loop of [expand_using_cell_indices]. *)
Definition expand_row (shape_origin : nat * nat) (s : spreadsheet)
  (row_idx : nat) : M V spreadsheet :=
  do shape <- Spreadsheet_shape s ;
  do s1 <-
    (if Nat.leb (fst shape_origin) row_idx then
       (* Append wholly new rows *)
       do row <- mapM (fun _ => empty_cell (_cell_indices s)) (seq 0 (snd shape)) ;
       ret (mkSpreadsheet (_cell_indices s) (_sheet s ++ [row]))
     else
       (* Expand columns *)
       foldM (expand_column_step row_idx) s
             (seq 0 (snd shape - snd shape_origin)%nat)) ;
  (* Has to refresh cell indices everywhere inside *)
  foldM (refresh_step row_idx) s1 (seq 0 (snd shape)).

(** [Spreadsheet.expand_using_cell_indices] *)
Definition Spreadsheet_expand_using_cell_indices (s : spreadsheet)
  (cell_indices : loc) : M V spreadsheet :=
  do shape_origin <- Spreadsheet_shape s ;
  do ci <- deepcopy_ci cell_indices ;
  let s0 := mkSpreadsheet ci (_sheet s) in
  do shape <- Spreadsheet_shape s0 ;
  foldM (expand_row shape_origin) s0 (seq 0 (fst shape)).

(** Modelled from the spec (CellIndices is not in the sources, 4.3):
    [expand_size] returns a new CellIndices object with the rows and columns
    appended and the label sequences extended. *)
Definition CellIndices_expand_size (ci : loc) (new_number_of_rows
  new_number_of_columns : nat) (new_rows_labels new_columns_labels : list string)
  : M V loc :=
  do c <- get_ci ci ;
  alloc_ci (mkCellIndices (ci_rows c + new_number_of_rows)%nat
                          (ci_cols c + new_number_of_columns)%nat
                          (ci_rows_labels c ++ new_rows_labels)
                          (ci_columns_labels c ++ new_columns_labels)).

(** [Spreadsheet.expand] *)
Definition Spreadsheet_expand (s : spreadsheet) (new_number_of_rows
  new_number_of_columns : nat) (new_rows_labels new_columns_labels : list string)
  : M V spreadsheet :=
  do ci <- CellIndices_expand_size (_cell_indices s) new_number_of_rows
             new_number_of_columns new_rows_labels new_columns_labels ;
  Spreadsheet_expand_using_cell_indices s ci.

(** [range(start, stop, step)] on Python ints: [ValueError] for a zero
    step; otherwise [start, start + step, ...] strictly before [stop], of
    length [max(0, ceil((stop - start) / step))]. *)
Definition py_range (start stop step : Z) : pyres (list Z) :=
  if step =? 0 then Err ValueError else
  let n := if 0 <? step then (stop - start + step - 1) / step
           else (start - stop - step - 1) / (- step) in
  Ok (map (fun i => start + Z.of_nat i * step) (seq 0 (Z.to_nat n))).

(** Modelled from the spec (the [iloc] accessor [_Location] is not in the
    sources): [self.iloc[x, y]] on Python ints reads through [_get_item]. *)
Definition Spreadsheet_iloc_at (s : spreadsheet) (x y : Z) : M V loc :=
  Spreadsheet__get_item s (PInt x) (PInt y).

(** Modelled from the spec (the [iloc] accessor [_Location] is not in the
    sources): [self.iloc[x, y] = value] writes through [_set_item]. *)
Definition Spreadsheet_iloc_set (s : spreadsheet) (value : cellval V) (x y : Z)
  : M V spreadsheet :=
  Spreadsheet__set_item s value (PInt x) (PInt y).

(** [Spreadsheet._get_slice]: the cells of the row-major cross product of
    the two ranges, collected through [iloc]. *)
Definition Spreadsheet__get_slice (s : spreadsheet)
  (_x_start _x_end _x_step _y_start _y_end _y_step : Z) : M V cellslice :=
  do xs <- lift (py_range _x_start _x_end _x_step) ;
  do cell_subset <-
    foldM (fun acc x =>
             do ys <- lift (py_range _y_start _y_end _y_step) ;
             foldM (fun acc y =>
                      do l <- Spreadsheet_iloc_at s x y ; ret (acc ++ [l]))
                   acc ys)
          [] xs ;
  ret (mkCellSlice (_x_start, _y_start) (_x_end - 1, _y_end - 1) cell_subset s).

(** [Spreadsheet.delete_row].  [index_of] stands for
    [self.index.index(row_label)] (the label list of [Serialization], which
    is not in the sources). *)
Definition Spreadsheet_delete_row (index_of : string -> M V Z) (s : spreadsheet)
  (row_index : option Z) (row_label : option string) : M V unit :=
  match row_index, row_label with
  | Some _, Some _ => raise AttributeError
  | _, _ =>
      do row_index <-
        match row_label with
        | Some lab => do z <- index_of lab ; ret (Some z)
        | None => ret row_index
        end ;
      match row_index with
      | None => ret tt
      | Some z =>
          do shape <- Spreadsheet_shape s ;
          if (0 <=? z) && (z <? Z.of_nat (fst shape)) then
            (* [for col_idx in self.shape[1]]: an int is not iterable *)
            do _ <- Spreadsheet_shape s ; raise TypeError
          else raise IndexError
      end
  end.

(** [Spreadsheet.insert_row_before] and [insert_column_before]. *)
Definition Spreadsheet_insert_before (s : spreadsheet) (label help_text : option string)
  (reference_index : option Z) (reference_label : option string) : M V unit :=
  match reference_index, reference_label with
  | Some _, Some _ => raise IndexError
  | _, _ => ret tt
  end.

(** [Spreadsheet.insert_row_after] and [insert_column_after]; [index_of]
    is [self.index.index] for rows and [self.columns.index] for columns
    (not in the sources). *)
Definition Spreadsheet_insert_after (index_of : string -> M V Z) (s : spreadsheet)
  (label help_text : option string) (reference_index : option Z)
  (reference_label : option string) : M V unit :=
  match reference_index, reference_label with
  | Some _, Some _ => raise IndexError
  | _, _ =>
      do reference_index <-
        match reference_label with
        | Some lab => do z <- index_of lab ; ret (Some z)
        | None => ret reference_index
        end ;
      match reference_index with
      (* [None - 1] *)
      | None => raise TypeError
      | Some z => Spreadsheet_insert_before s label help_text (Some (z - 1)) None
      end
  end.

(** [cell.update_after_cell_delete(...)]: [Cell] defines no such method, so
    the attribute lookup raises [AttributeError]. *)
Definition Cell_update_after_cell_delete (l : loc) (row_index column_index : Z)
  : M V (list (Z * Z)) :=
  do _ <- get_cell l ; raise AttributeError.

(** [cell.re_evaluate(sheet)]: [Cell] defines no such method either. *)
Definition Cell_re_evaluate (l : loc) (s : spreadsheet) : M V unit :=
  do _ <- get_cell l ; raise AttributeError.

(** [Spreadsheet._delete_single_cell] *)
Definition Spreadsheet__delete_single_cell (s : spreadsheet) (pr pc : Z)
  : M V spreadsheet :=
  do c <- Cell_new (Some (PInt pr)) (Some (PInt pc)) None (_cell_indices s) value_only None ;
  do s <- Spreadsheet_iloc_set s (CVCell c) pr pc ;
  do shape <- Spreadsheet_shape s ;
  do_ foldM (fun _ row =>
         foldM (fun _ col =>
                  if (row =? pr) && (col =? pc) then ret tt else
                  do l <- Spreadsheet_iloc_at s row col ;
                  do set_to_update <- Cell_update_after_cell_delete l pr pc ;
                  foldM (fun _ idx =>
                           do l' <- Spreadsheet_iloc_at s (fst idx) (snd idx) ;
                           Cell_re_evaluate l' s)
                        tt set_to_update)
               tt (map Z.of_nat (seq 0 (snd shape))))
      tt (map Z.of_nat (seq 0 (fst shape))) ;
  ret s.

End SpreadsheetModel.

(** ** A concrete value model for examples

    Python floats as exact rationals plus NaN.  Results that are not
    rational (non-integral powers) are outside this model and give NaN. *)

Inductive pyfloat := PyF (q : Q) | PyNaN.

Definition pyf_lift2 (f : Q -> Q -> Q) (a b : pyfloat) : pyres pyfloat :=
  match a, b with PyF x, PyF y => Ok (PyF (f x y)) | _, _ => Ok PyNaN end.

#[global] Instance pyfloat_arith : PyArith pyfloat := {
  py_add := pyf_lift2 Qplus;
  py_sub := pyf_lift2 Qminus;
  py_mul := pyf_lift2 Qmult;
  (* [x / 0.0] raises ZeroDivisionError in Python, also for [nan / 0.0] *)
  py_div := fun a b =>
    match b with
    | PyF y => if Qeq_bool y 0 then Err ZeroDivisionError
               else match a with PyF x => Ok (PyF (x / y)) | PyNaN => Ok PyNaN end
    | PyNaN => Ok PyNaN
    end;
  py_pow := fun a b =>
    match a, b with
    | PyF x, PyF y =>
        if (Zpos (Qden y) =? 1)%Z then
          if Qeq_bool x 0 && (Qnum y <? 0)%Z then Err ZeroDivisionError
          else Ok (PyF (Qpower x (Qnum y)))
        else Ok PyNaN
    | _, _ => Ok PyNaN
    end
}.

Definition pyf_min (a b : pyfloat) : pyfloat :=
  match a, b with PyF x, PyF y => PyF (Qmin x y) | _, _ => PyNaN end.
Definition pyf_max (a b : pyfloat) : pyfloat :=
  match a, b with PyF x, PyF y => PyF (Qmax x y) | _, _ => PyNaN end.
Definition pyf_add (a b : pyfloat) : pyfloat :=
  match a, b with PyF x, PyF y => PyF (x + y) | _, _ => PyNaN end.
Definition pyf_mul (a b : pyfloat) : pyfloat :=
  match a, b with PyF x, PyF y => PyF (x * y) | _, _ => PyNaN end.

Fixpoint all_present (xs : list (option pyfloat)) : option (list pyfloat) :=
  match xs with
  | [] => Some []
  | Some x :: xs' => match all_present xs' with Some ys => Some (x :: ys) | None => None end
  | None :: _ => None
  end.

(** numpy reductions over floats: [np.sum([]) = 0.0], [np.prod([]) = 1.0],
    [np.mean([]) = nan], and [np.min([])], [np.max([])] raise ValueError;
    over a list holding [None] numpy works on an object array, where only
    [[None]] itself reduces (to [None]) for sum, product, min and max. *)
#[global] Instance pyfloat_reduce : NpReduce pyfloat := {
  np_reduce := fun op xs =>
    match all_present xs with
    | Some ys =>
        match op, ys with
        | AggSum, _ => Ok (Some (fold_left pyf_add ys (PyF 0)))
        | AggProduct, _ => Ok (Some (fold_left pyf_mul ys (PyF 1)))
        | AggMean, [] => Ok (Some PyNaN)
        | AggMean, _ =>
            Ok (Some (match fold_left pyf_add ys (PyF 0) with
                      | PyF q => PyF (q / inject_Z (Z.of_nat (length ys)))
                      | PyNaN => PyNaN
                      end))
        | (AggMin | AggMax), [] => Err ValueError
        | AggMin, y :: ys' => Ok (Some (fold_left pyf_min ys' y))
        | AggMax, y :: ys' => Ok (Some (fold_left pyf_max ys' y))
        end
    | None =>
        match op, xs with
        | AggMean, _ => Err TypeError
        | _, [None] => Ok None
        | _, _ => Err TypeError
        end
    end
}.

(** [np.log] and [np.exp] on floats: exact where the result is rational
    ([log(1.0) = 0.0], [exp(0.0) = 1.0]); every other result is not
    rational and, as above, outside this model (NaN). *)
#[global] Instance pyfloat_ufunc : NpUfunc pyfloat := {
  np_log := fun a => match a with
                     | PyF x => if Qeq_bool x 1 then PyF 0 else PyNaN
                     | PyNaN => PyNaN
                     end;
  np_exp := fun a => match a with
                     | PyF x => if Qeq_bool x 0 then PyF 1 else PyNaN
                     | PyNaN => PyNaN
                     end
}.

(** An empty heap holding one 2 x 2 CellIndices object at location 0. *)
Definition ci22 : cellindices := mkCellIndices 2 2 ["r0"; "r1"]%string ["c0"; "c1"]%string.
Definition heap0 : heap pyfloat := mkHeap ∅ {[ 0%nat := ci22 ]}.

Definition run {A} (m : M pyfloat A) (h : heap pyfloat) : pyres (A * heap pyfloat) := m h.

(** ** Observations and concrete scenarios *)

(** The object stored in the sheet slot [(i, j)]. *)
Definition slot (s : spreadsheet) (i j : nat) : option loc :=
  _sheet s !! i ≫= fun r => r !! j.

Definition slot_cell {V} (s : spreadsheet) (h : heap V) (i j : nat) : option (cell V) :=
  slot s i j ≫= fun l => h_cells h !! l.

(** A free Value cell, as [Cell(value=v, cell_indices=ci)] builds it. *)
Definition value_cell {V} (v : option V) (ci : loc) : cell V :=
  mkCell None None v value_only ci (FConst v).

Definition qf (z : Z) : pyfloat := PyF (inject_Z z).

(** Cells 0 and 1 hold 1.0 and 0.0 over CellIndices 0; cell 2 holds 1.0
    over a second CellIndices object 1. *)
Definition heap_ops : heap pyfloat :=
  mkHeap {[ 0%nat := value_cell (Some (qf 1)) 0%nat;
            1%nat := value_cell (Some (qf 0)) 0%nat;
            2%nat := value_cell (Some (qf 1)) 1%nat ]}
         {[ 0%nat := ci22; 1%nat := ci22 ]}.

(** Two empty cells over two CellIndices objects. *)
Definition heap_empty2 : heap pyfloat :=
  mkHeap {[ 0%nat := value_cell None 0%nat; 1%nat := value_cell None 1%nat ]}
         {[ 0%nat := ci22; 1%nat := ci22 ]}.

(** [sheet = Spreadsheet(ci22)]; [sheet.iloc[0, 0] = 2];
    [sheet.iloc[1, 1] = sheet.iloc[0, 0]]. *)
Definition scenario_assign_anchored : M pyfloat spreadsheet :=
  do s <- Spreadsheet___init__ 0%nat ;
  do s <- Spreadsheet__set_item s (CVNumber (qf 2)) (PInt 0) (PInt 0) ;
  do l <- Spreadsheet__get_item s (PInt 0) (PInt 0) ;
  Spreadsheet__set_item s (CVCell l) (PInt 1) (PInt 1).

(** ... and then [sheet.iloc[0, 0] = 10]. *)
Definition scenario_reassign_source : M pyfloat spreadsheet :=
  do s <- scenario_assign_anchored ;
  Spreadsheet__set_item s (CVNumber (qf 10)) (PInt 0) (PInt 0).

Definition scenario_fresh_sheet : M pyfloat spreadsheet :=
  Spreadsheet___init__ 0%nat.

(** Cell 0 is anchored at (0, 0) and holds 2.0; cell 1 is free. *)
Definition heap_anchored : heap pyfloat :=
  mkHeap {[ 0%nat := mkCell (Some (PInt 0)) (Some (PInt 0)) (Some (qf 2))
                            value_only 0%nat (FConst (Some (qf 2)));
            1%nat := value_cell (Some (qf 3)) 0%nat ]}
         {[ 0%nat := ci22 ]}.

(** A one-row sheet over CellIndices 0 whose slots hold objects 5 and 6. *)
Definition sheet_w : spreadsheet := mkSpreadsheet 0%nat [[5%nat; 6%nat]].

(** [x] in [sheet.iloc[x, 0]] for a fresh 2 x 2 sheet: [-1] and [1.0000001]. *)
Definition get_row_minus_one : M pyfloat loc :=
  do s <- scenario_fresh_sheet ; Spreadsheet__get_item s (PInt (-1)) (PInt 0).
Definition get_row_near_one : M pyfloat loc :=
  do s <- scenario_fresh_sheet ;
  Spreadsheet__get_item s (PFloat (10000001 # 10000000)) (PInt 0).
Definition get_row_one : M pyfloat loc :=
  do s <- scenario_fresh_sheet ; Spreadsheet__get_item s (PInt 1) (PInt 0).

(** The grid of [Spreadsheet(ci22)] after [sheet.iloc[0, 0] = 2]: objects
    0 .. 3 are the cells of the 2 x 2 grid over CellIndices 0. *)
Definition grid_cell (i j : Z) : cell pyfloat :=
  mkCell (Some (PInt i)) (Some (PInt j)) None value_only 0%nat
         (FRef (Some (PInt i)) (Some (PInt j))).
Definition heap_grid22 : heap pyfloat :=
  mkHeap {[ 0%nat := mkCell (Some (PInt 0)) (Some (PInt 0)) (Some (qf 2)) value_only 0%nat
                            (FConst (Some (qf 2)));
            1%nat := grid_cell 0 1; 2%nat := grid_cell 1 0; 3%nat := grid_cell 1 1 ]}
         {[ 0%nat := ci22 ]}.
Definition sheet_grid22 : spreadsheet := mkSpreadsheet 0%nat [[0%nat; 1%nat]; [2%nat; 3%nat]].

(** A 1 x 2 CellIndices object, stored next to [ci22] as object 1. *)
Definition ci12 : cellindices := mkCellIndices 1 2 ["r0"]%string ["c0"; "c1"]%string.
Definition heap_grid22_ci12 : heap pyfloat :=
  mkHeap (h_cells heap_grid22) (<[1%nat := ci12]> (h_cis heap_grid22)).

(** A 1 x 1 sheet over CellIndices 0 whose only slot holds its grid cell. *)
Definition ci11 : cellindices := mkCellIndices 1 1 ["r0"]%string ["c0"]%string.
Definition heap_one : heap pyfloat :=
  mkHeap {[ 0%nat := grid_cell 0 0 ]} {[ 0%nat := ci11 ]}.
Definition sheet_one : spreadsheet := mkSpreadsheet 0%nat [[0%nat]].

(** ** Relations used by the proofs about [expand] *)

(** [c'] is [c] up to its [cell_indices] field. *)
Definition same_but_ci {V} (c c' : cell V) : Prop :=
  row c' = row c /\ column c' = column c /\ _value c' = _value c /\
  cell_type c' = cell_type c /\ _constructing_words c' = _constructing_words c.

(** The heap evolves from [h] to [h'] by creating empty cells over [ci] and
    by re-pointing cells at [ci]: no CellIndices object changes, every old
    cell keeps all its fields but [cell_indices] (and keeps [ci] once it has
    it), and every new cell is an empty free cell over [ci]. *)
Definition evolves {V} (ci : loc) (h h' : heap V) : Prop :=
  h_cis h' = h_cis h /\
  (forall l c, h_cells h !! l = Some c ->
     exists c', h_cells h' !! l = Some c' /\ same_but_ci c c' /\
                (cell_indices c = ci -> cell_indices c' = ci)) /\
  (forall l c', h_cells h !! l = None -> h_cells h' !! l = Some c' ->
     c' = value_cell None ci).

(** The state of the row loop of [expand_using_cell_indices] after the rows
    [0 .. k-1] are done, relative to the original rows [S] (of [C0] cells,
    [R0] of them) and the heap [h0] at the start of the loop; [C1] is the
    new number of columns and [ci] the new CellIndices object. *)
Definition expand_inv {V} (R0 C1 : nat) (ci : loc) (S : list (list loc))
  (h0 : heap V) (k : nat) (s : spreadsheet) (h : heap V) : Prop :=
  _cell_indices s = ci /\
  evolves ci h0 h /\
  length (_sheet s) = Nat.max R0 k /\
  (forall i, (k <= i)%nat -> _sheet s !! i = S !! i) /\
  (forall i, (i < k)%nat -> exists r, _sheet s !! i = Some r /\ length r = C1 /\
     forall j l, r !! j = Some l ->
       exists c, h_cells h !! l = Some c /\ cell_indices c = ci) /\
  (forall i j l, slot s i j = Some l ->
     is_Some (h_cells h !! l) /\
     match S !! i ≫= (fun r => r !! j) with
     | Some l0 => l = l0
     | None => h_cells h0 !! l = None
     end).

(** A computation that, whenever it succeeds, leaves every CellIndices
    object of the heap as it was. *)
Definition cis_frame {V A} (m : M V A) : Prop :=
  forall h a h', m h = Ok (a, h') -> h_cis h' = h_cis h.

(** After a call that went from [h] to [h'], the object [ci'] held by the
    sheet is a copy of the CellIndices object [ci]: a new object, not [ci]
    itself, holding [ci]'s contents; the call created no other CellIndices
    object and changed none; and replacing the contents of [ci] afterwards
    does not change [ci']. *)
Definition stores_copy {V} (ci : loc) (h h' : heap V) (ci' : loc) : Prop :=
  exists r, h_cis h !! ci = Some r /\ h_cis h !! ci' = None /\ ci' <> ci /\
    h_cis h' = <[ci' := r]> (h_cis h) /\
    forall r', <[ci := r']> (h_cis h') !! ci' = Some r.

(** Cells allocated by a loop: dead before it, live after it. *)
Definition allocated {V} (h h' : heap V) (ls : list loc) : Prop :=
  Forall (fun l => h_cells h !! l = None /\ is_Some (h_cells h' !! l)) ls.

(** ** Heap lemmas *)

Section HeapLemmas.
Context {V : Type}.
Implicit Types (h : heap V).

Lemma fresh_cell_not_in h :
  h_cells h !! fresh (dom (h_cells h)) = None.
Proof. apply not_elem_of_dom, is_fresh. Qed.

Lemma fresh_ci_not_in h :
  h_cis h !! fresh (dom (h_cis h)) = None.
Proof. apply not_elem_of_dom, is_fresh. Qed.

Lemma Cell_new_ok (r c : option pynum) (v : option V) (ci : loc) (ct : celltype)
  (w : fragment V) h :
  (r = None <-> c = None) ->
  Cell_new r c v ci ct (Some w) h =
  Ok (fresh (dom (h_cells h)),
      mkHeap (<[fresh (dom (h_cells h)) := mkCell r c v ct ci w]> (h_cells h))
             (h_cis h)).
Proof.
  intros Hrc. unfold Cell_new.
  destruct r, c; try reflexivity; exfalso.
  - destruct Hrc as [_ H]. discriminate (H eq_refl).
  - destruct Hrc as [H _]. discriminate (H eq_refl).
Qed.

End HeapLemmas.

Ltac unfold_monad :=
  unfold bind, ret, lift, raise, get_cell, put_cell, alloc_cell, get_ci,
    alloc_ci in *.

(** ** Cell arithmetic (C1, C4) *)

Section CellArith.
Context {V : Type} `{PyArith V}.

(** C1 (amended).  For cells [a] and [b] with present values that share one
    CellIndices object, whenever the native operation [a.value OP b.value]
    yields [v], [a.OP(b)] returns a new Free, Computational cell whose value
    is [v] and whose words join the operands' words; no other object of the
    heap, in particular neither operand, is changed.  [Cell_add],
    [Cell_subtract], [Cell_multiply], [Cell_divide] and [Cell_power] are
    [Cell_binary] at [OpAdd] .. [OpPow]. *)
Theorem Cell_binary_new_free_cell (op : binop) (h : heap V) (la lb : loc)
  (a b : cell V) (x y v : V) :
  h_cells h !! la = Some a -> h_cells h !! lb = Some b ->
  Cell_value a = Some x -> Cell_value b = Some y ->
  cell_indices a = cell_indices b ->
  py_binop op (Some x) (Some y) = Ok v ->
  exists l h', Cell_binary op la lb h = Ok (l, h') /\
    h_cells h !! l = None /\
    h_cells h' !! l = Some (mkCell None None (Some v) computational
                              (cell_indices b) (FBin op (Cell_word a) (Cell_word b))) /\
    (forall l0, l0 <> l -> h_cells h' !! l0 = h_cells h !! l0) /\
    h_cis h' = h_cis h.
Proof.
  intros Ha Hb Hx Hy Hci Hop.
  unfold Cell_binary, WordConstructor_binary. unfold_monad.
  rewrite Ha, Hb, Hx, Hy, Hop, Hci, Nat.eqb_refl.
  rewrite Cell_new_ok by tauto.
  eexists _, _. split; [reflexivity|]. simpl.
  split; [apply fresh_cell_not_in|].
  split; [apply lookup_insert_eq|].
  split; [intros l0 Hne; apply lookup_insert_ne; congruence|reflexivity].
Qed.

(** C4 (amended).  For cells [a] and [b] over different CellIndices
    objects, every binary operation fails: with [IncompatibleIndices] when
    the native arithmetic on their values succeeds, otherwise with the
    arithmetic's own error, which is raised first. *)
Theorem Cell_binary_incompatible (op : binop) (h : heap V) (la lb : loc)
  (a b : cell V) :
  h_cells h !! la = Some a -> h_cells h !! lb = Some b ->
  cell_indices a <> cell_indices b ->
  Cell_binary op la lb h =
  Err (match py_binop op (Cell_value a) (Cell_value b) with
       | Ok _ => IncompatibleIndices
       | Err e => e
       end).
Proof.
  intros Ha Hb Hci.
  unfold Cell_binary, WordConstructor_binary. unfold_monad.
  rewrite Ha, Hb.
  destruct (py_binop op (Cell_value a) (Cell_value b)); [|reflexivity].
  apply Nat.eqb_neq in Hci. rewrite Hci. reflexivity.
Qed.

End CellArith.

(** Witness of C1: [1.0 + 1.0] over CellIndices 0. *)
Lemma Cell_binary_new_free_cell_witness :
  exists l h', Cell_binary OpAdd 0%nat 0%nat heap_ops = Ok (l, h') /\
    h_cells heap_ops !! l = None /\
    h_cells h' !! l = Some (mkCell None None (Some (PyF (inject_Z 1 + inject_Z 1)))
                              computational 0%nat
                              (FBin OpAdd (FConst (Some (qf 1))) (FConst (Some (qf 1))))) /\
    (forall l0, l0 <> l -> h_cells h' !! l0 = h_cells heap_ops !! l0) /\
    h_cis h' = h_cis heap_ops.
Proof.
  apply (Cell_binary_new_free_cell OpAdd heap_ops 0%nat 0%nat
           (value_cell (Some (qf 1)) 0%nat) (value_cell (Some (qf 1)) 0%nat)
           (qf 1) (qf 1)); reflexivity.
Defined.

(** Counterexample to C1 as stated: with present values, [1.0 / 0.0] raises
    ZeroDivisionError, and [1.0 + 1.0] over two CellIndices objects raises
    IncompatibleIndices; neither returns a cell. *)
Lemma Cell_binary_present_values_can_fail :
  Cell_divide 0%nat 1%nat heap_ops = Err ZeroDivisionError /\
  Cell_add 0%nat 2%nat heap_ops = Err IncompatibleIndices.
Proof. split; vm_compute; reflexivity. Qed.

(** Witness of C4. *)
Lemma Cell_binary_incompatible_witness :
  Cell_binary OpAdd 0%nat 2%nat heap_ops = Err IncompatibleIndices.
Proof.
  exact (Cell_binary_incompatible OpAdd heap_ops 0%nat 2%nat
           (value_cell (Some (qf 1)) 0%nat) (value_cell (Some (qf 1)) 1%nat)
           eq_refl eq_refl ltac:(discriminate)).
Defined.

(** Counterexample to C4 as stated: two empty cells over different
    CellIndices objects; [None + None] raises TypeError before the words
    are built, so the error is not IncompatibleIndices. *)
Lemma Cell_add_incompatible_empty_cells :
  Cell_add 0%nat 1%nat heap_empty2 = Err TypeError.
Proof. vm_compute. reflexivity. Qed.

(** ** References, numeric wrappers and aggregations (C8, C6, C3) *)

Section CellOther.
Context {V : Type}.

Lemma get_cells_ok (h : heap V) (ls : list loc) (cs : list (cell V)) :
  Forall2 (fun l c => h_cells h !! l = Some c) ls cs ->
  get_cells ls h = Ok (cs, h).
Proof.
  induction 1 as [|l c ls' cs' Hl _ IH]; [reflexivity|].
  simpl. unfold_monad. rewrite Hl. unfold bind in IH. rewrite IH. reflexivity.
Qed.

Lemma py_getitem_head {A} (x : A) (xs : list A) :
  py_getitem (x :: xs) (PInt 0) = Ok x.
Proof. reflexivity. Qed.

(** C8.  [Cell.reference(b)] fails with ValueError (the spec's
    InvalidOperand) and creates nothing when [b] is not anchored; when [b]
    is anchored it returns a new Computational cell whose value is
    [b.value] and whose words are the reference fragment of [b]'s
    coordinates, not [b]'s own expression. *)
Theorem Cell_reference_spec (h : heap V) (l : loc) (b : cell V) :
  h_cells h !! l = Some b ->
  (Cell_anchored b = false -> Cell_reference l h = Err ValueError) /\
  (Cell_anchored b = true ->
   exists l' h', Cell_reference l h = Ok (l', h') /\
     h_cells h !! l' = None /\
     h_cells h' !! l' = Some (mkCell None None (Cell_value b) computational
                               (cell_indices b) (FRef (row b) (column b))) /\
     (forall l0, l0 <> l' -> h_cells h' !! l0 = h_cells h !! l0)).
Proof.
  intros Hb. unfold Cell_reference. unfold_monad. rewrite Hb.
  split; intros Ha; rewrite Ha; [reflexivity|].
  cbn -[Cell_new]. rewrite Cell_new_ok by tauto.
  eexists _, _. split; [reflexivity|]. simpl.
  split; [apply fresh_cell_not_in|].
  split; [apply lookup_insert_eq|].
  intros l0 Hne. apply lookup_insert_ne. congruence.
Qed.

(** C6 (code defect).  [Cell.exponential(a)] computes [np.exp(a.value)] but
    builds its words with [WordConstructor.logarithm]: the fragment of the
    result is the logarithm call around [a]'s word, which differs from the
    exponential call. *)
Theorem Cell_exponential_words_are_logarithm `{NpUfunc V} (h : heap V) (l : loc) :
  match h_cells h !! l with
  | Some b =>
      match Cell_value b with
      | Some x =>
          exists l' h', Cell_exponential l h = Ok (l', h') /\
            h_cells h' !! l' = Some (mkCell None None (Some (np_exp x)) computational
                                      (cell_indices b) (WordConstructor_logarithm b)) /\
            WordConstructor_logarithm b <> WordConstructor_exponential b
      | None => Cell_exponential l h = Err TypeError
      end
  | None => Cell_exponential l h = Err AttributeError
  end.
Proof.
  unfold Cell_exponential. unfold_monad.
  destruct (h_cells h !! l) as [b|]; [|reflexivity].
  unfold Cell_value, np_unary. destruct (_value b) as [x|]; [|reflexivity].
  cbn -[Cell_new]. rewrite Cell_new_ok by tauto.
  eexists _, _. split; [reflexivity|]. split; [apply lookup_insert_eq|].
  discriminate.
Qed.

(** The logarithm, for comparison: value [np.log(a.value)], words the
    logarithm call around [a]'s word. *)
Lemma Cell_logarithm_words `{NpUfunc V} (h : heap V) (l : loc) (b : cell V) (x : V) :
  h_cells h !! l = Some b -> Cell_value b = Some x ->
  exists l' h', Cell_logarithm l h = Ok (l', h') /\
    h_cells h' !! l' = Some (mkCell None None (Some (np_log x)) computational
                              (cell_indices b) (FLog (Cell_word b))).
Proof.
  intros Hb Hx. unfold Cell_logarithm. unfold_monad. rewrite Hb.
  unfold np_unary. rewrite Hx. cbn -[Cell_new]. rewrite Cell_new_ok by tauto.
  eexists _, _. split; [reflexivity|]. apply lookup_insert_eq.
Qed.

(** C3 (amended).  On an empty subset every aggregation fails, but with no
    dedicated error: the numpy reduction's own error when it raises
    ([np.min], [np.max] on an empty list), otherwise IndexError from
    [subset[0]].  On a non-empty subset of live cells whose values numpy
    reduces to [v], it returns a new Free, Computational cell with value
    [v] and an aggregation fragment over the first member's CellIndices. *)
Theorem Cell__aggregate_fun_spec `{NpReduce V} (h : heap V) (s e : Z * Z)
  (op : aggop) :
  Cell__aggregate_fun s e [] op h =
    Err (match np_reduce op [] with Ok _ => IndexError | Err err => err end) /\
  (forall (l0 : loc) (ls : list loc) (c0 : cell V) (cs : list (cell V)) (v : option V),
     Forall2 (fun l c => h_cells h !! l = Some c) (l0 :: ls) (c0 :: cs) ->
     np_reduce op (map Cell_value (c0 :: cs)) = Ok v ->
     exists l h', Cell__aggregate_fun s e (l0 :: ls) op h = Ok (l, h') /\
       h_cells h !! l = None /\
       h_cells h' !! l = Some (mkCell None None v computational (cell_indices c0)
                                 (FAgg (cell_indices c0) op s e))).
Proof.
  split.
  - unfold Cell__aggregate_fun. simpl. unfold_monad. simpl.
    destruct (np_reduce op []); reflexivity.
  - intros l0 ls c0 cs v Hall Hv.
    unfold Cell__aggregate_fun. pose proof (get_cells_ok h _ _ Hall) as Hg.
    unfold bind at 1. rewrite Hg. unfold_monad. rewrite Hv.
    inversion Hall as [|? ? ? ? Hl0 _]; subst.
    rewrite py_getitem_head. cbn -[Cell_new]. rewrite Hl0. rewrite Cell_new_ok by tauto.
    eexists _, _. split; [reflexivity|]. simpl.
    split; [apply fresh_cell_not_in | apply lookup_insert_eq].
Qed.

End CellOther.

(** Witness of C8: a reference to the cell anchored at (0, 0). *)
Lemma Cell_reference_spec_witness :
  Cell_reference 1%nat heap_anchored = Err ValueError /\
  exists l' h', Cell_reference 0%nat heap_anchored = Ok (l', h') /\
    h_cells heap_anchored !! l' = None /\
    h_cells h' !! l' = Some (mkCell None None (Some (qf 2)) computational 0%nat
                              (FRef (Some (PInt 0)) (Some (PInt 0)))) /\
    (forall l0, l0 <> l' -> h_cells h' !! l0 = h_cells heap_anchored !! l0).
Proof.
  split.
  - exact (proj1 (Cell_reference_spec heap_anchored 1%nat
                    (value_cell (Some (qf 3)) 0%nat) eq_refl) eq_refl).
  - exact (proj2 (Cell_reference_spec heap_anchored 0%nat
                    (mkCell (Some (PInt 0)) (Some (PInt 0)) (Some (qf 2))
                            value_only 0%nat (FConst (Some (qf 2)))) eq_refl) eq_refl).
Defined.

(** Witness of C3: [Cell.sum] over cells 0 and 1 of [heap_ops]. *)
Lemma Cell__aggregate_fun_spec_witness :
  exists l h', Cell__aggregate_fun (0, 0) (0, 1) [0%nat; 1%nat] AggSum heap_ops = Ok (l, h') /\
    h_cells heap_ops !! l = None /\
    h_cells h' !! l = Some (mkCell None None (Some (PyF (0 + inject_Z 1 + inject_Z 0)))
                              computational 0%nat (FAgg 0%nat AggSum (0, 0) (0, 1))).
Proof.
  exact (proj2 (Cell__aggregate_fun_spec heap_ops (0, 0) (0, 1) AggSum)
           0%nat [1%nat] (value_cell (Some (qf 1)) 0%nat)
           [value_cell (Some (qf 0)) 0%nat] _
           ltac:(repeat constructor) eq_refl).
Defined.

(** Counterexample to C3 as stated: on the empty subset [Cell.sum] fails
    with IndexError (from [subset[0]], since [np.sum([])] is [0.0]) and
    [Cell.min] with ValueError (from [np.min([])]): no single error is
    raised by all five aggregations. *)
Lemma Cell_aggregate_empty_errors_differ :
  Cell_sum (0, 0) (0, 2) [] heap0 = Err IndexError /\
  Cell_min (0, 0) (0, 2) [] heap0 = Err ValueError /\
  ~ (exists err, forall op, Cell__aggregate_fun (0, 0) (0, 2) [] op heap0 = Err err).
Proof.
  split; [reflexivity|]. split; [reflexivity|].
  intros [err Herr].
  pose proof (Herr AggSum) as H1. pose proof (Herr AggMin) as H2.
  vm_compute in H1, H2. congruence.
Qed.

(** C2 (code defect).  In the sheet built by [scenario_assign_anchored]
    the slot (1, 1), assigned an anchored cell, holds the free cell returned
    by [Cell.reference]: it is stored in the grid but is not anchored, while
    the slot (0, 0), assigned a number, is anchored. *)
Lemma Spreadsheet__set_item_anchored_cell_stores_free_cell :
  match scenario_assign_anchored heap0 with
  | Ok (s, h) =>
      option_map Cell_anchored (slot_cell s h 1 1) = Some false /\
      option_map row (slot_cell s h 1 1) = Some None /\
      option_map Cell_anchored (slot_cell s h 0 0) = Some true
  | Err _ => False
  end.
Proof. vm_compute. repeat split. Qed.

(** ** Python indexing lemmas *)

Lemma not_integral_int (z : Z) : not_integral (PInt z) = false.
Proof.
  unfold not_integral, Qle_bool. simpl.
  replace (z * 1 + - z * 1)%Z with 0%Z by lia. reflexivity.
Qed.

Lemma py_norm_index_nat {A} (l : list A) (i : nat) :
  (i < length l)%nat -> py_norm_index l (PInt (Z.of_nat i)) = Ok i.
Proof.
  intros Hi. unfold py_norm_index.
  replace ((0 <=? Z.of_nat i) && (Z.of_nat i <? Z.of_nat (length l))) with true
    by (symmetry; apply andb_true_intro; split; [apply Z.leb_le | apply Z.ltb_lt]; lia).
  rewrite Nat2Z.id. reflexivity.
Qed.

Lemma py_getitem_nat {A} (l : list A) (i : nat) (x : A) :
  l !! i = Some x -> py_getitem l (PInt (Z.of_nat i)) = Ok x.
Proof.
  intros Hx. unfold py_getitem.
  rewrite py_norm_index_nat by (apply lookup_lt_is_Some; eauto).
  rewrite Hx. reflexivity.
Qed.

Lemma py_setitem_nat {A} (l : list A) (i : nat) (x : A) :
  (i < length l)%nat -> py_setitem l (PInt (Z.of_nat i)) x = Ok (<[i := x]> l).
Proof. intros Hi. unfold py_setitem. rewrite py_norm_index_nat by exact Hi. reflexivity. Qed.

(** ** Assignment into the grid (C5) *)

Section SetItem.
Context {V : Type}.

Lemma slot_set (s : spreadsheet) (r c : nat) (row0 : list loc) (l : loc) :
  _sheet s !! r = Some row0 -> (c < length row0)%nat ->
  slot (mkSpreadsheet (_cell_indices s) (<[r := <[c := l]> row0]> (_sheet s))) r c
  = Some l.
Proof.
  intros Hr Hc. unfold slot. simpl.
  rewrite list_lookup_insert_eq by (apply lookup_lt_is_Some; eauto).
  simpl. apply list_lookup_insert_eq. exact Hc.
Qed.

(** C5 (amended).  For an in-range position [(r, c)]:
    - a number [v] is stored as a fresh Value cell anchored at [(r, c)]
      holding [v];
    - an anchored cell [a] is stored as a fresh cell built by
      [Cell.reference(a)]: Computational, with the reference fragment of
      [a]'s coordinates as words and a copy of [a.value] taken at
      assignment time;
    - a free cell [a] is stored as a fresh copy anchored at [(r, c)] with
      [a]'s value, type and words, while [a] itself and its CellIndices
      object are unchanged. *)
Theorem Spreadsheet__set_item_cases (s : spreadsheet) (h : heap V) (r c : nat)
  (row0 : list loc) :
  _sheet s !! r = Some row0 -> (c < length row0)%nat ->
  (forall v : V, exists s' h' l,
     Spreadsheet__set_item s (CVNumber v) (PInt (Z.of_nat r)) (PInt (Z.of_nat c)) h
       = Ok (s', h') /\
     slot s' r c = Some l /\ h_cells h !! l = None /\
     h_cells h' !! l = Some (mkCell (Some (PInt (Z.of_nat r))) (Some (PInt (Z.of_nat c)))
                             (Some v) value_only (_cell_indices s) (FConst (Some v)))) /\
  (forall (la : loc) (a : cell V), h_cells h !! la = Some a -> Cell_anchored a = true ->
   exists s' h' l,
     Spreadsheet__set_item s (CVCell la) (PInt (Z.of_nat r)) (PInt (Z.of_nat c)) h
       = Ok (s', h') /\
     slot s' r c = Some l /\ h_cells h !! l = None /\
     exists c', h_cells h' !! l = Some c' /\ cell_type c' = computational /\
       Cell_value c' = Cell_value a /\ _constructing_words c' = FRef (row a) (column a)) /\
  (forall (la : loc) (a : cell V) (ca : cellindices),
   h_cells h !! la = Some a -> Cell_anchored a = false ->
   h_cis h !! cell_indices a = Some ca ->
   exists s' h' l c',
     Spreadsheet__set_item s (CVCell la) (PInt (Z.of_nat r)) (PInt (Z.of_nat c)) h
       = Ok (s', h') /\
     slot s' r c = Some l /\ l <> la /\ h_cells h !! l = None /\
     h_cells h' !! l = Some c' /\
     row c' = Some (PInt (Z.of_nat r)) /\ column c' = Some (PInt (Z.of_nat c)) /\
     Cell_value c' = Cell_value a /\ cell_type c' = cell_type a /\
     _constructing_words c' = _constructing_words a /\
     h_cells h' !! la = Some a /\ h_cis h' !! cell_indices a = Some ca).
Proof.
  intros Hr Hc.
  assert (Hrl : (r < length (_sheet s))%nat) by (apply lookup_lt_is_Some; eauto).
  split; [|split].
  - intros v. unfold Spreadsheet__set_item. rewrite !not_integral_int. simpl orb.
    unfold_monad. cbn -[py_norm_index py_getitem py_setitem].
    rewrite py_norm_index_nat by exact Hrl.
    rewrite (py_getitem_nat _ _ _ Hr), py_setitem_nat by exact Hc.
    eexists _, _, _. split; [reflexivity|].
    split; [apply slot_set; assumption|].
    split; [apply fresh_cell_not_in | apply lookup_insert_eq].
  - intros la a Ha Hanc.
    destruct (proj2 (Cell_reference_spec h la a Ha) Hanc)
      as (l & h1 & Href & Hfresh & Hl & _).
    unfold Spreadsheet__set_item. rewrite !not_integral_int. cbn [orb]. cbv beta iota.
    unfold bind at 1 2. unfold get_cell at 1. rewrite Ha. cbv beta iota.
    rewrite Hanc. cbv beta iota. rewrite Href. unfold bind, lift.
    rewrite py_norm_index_nat by exact Hrl.
    rewrite (py_getitem_nat _ _ _ Hr), py_setitem_nat by exact Hc.
    eexists _, _, _. split; [reflexivity|].
    split; [apply slot_set; assumption|]. split; [assumption|].
    eexists. split; [exact Hl|]. split; [reflexivity|]. split; reflexivity.
  - intros la a ca Ha Hanc Hca.
    unfold Spreadsheet__set_item. rewrite !not_integral_int. cbn [orb].
    unfold deepcopy_cell, deepcopy_ci. unfold_monad. cbv beta iota.
    rewrite Ha. cbv beta iota. rewrite Hanc. cbv beta iota.
    rewrite Ha. cbv beta iota. rewrite Hca. cbv beta iota. cbn [h_cells h_cis].
    rewrite lookup_insert_eq. cbv beta iota.
    rewrite py_norm_index_nat by exact Hrl.
    rewrite (py_getitem_nat _ _ _ Hr), py_setitem_nat by exact Hc.
    assert (Hne : fresh (dom (h_cells h)) <> la).
    { intros Heq. pose proof (fresh_cell_not_in h) as Hn. congruence. }
    assert (Hne2 : fresh (dom (h_cis h)) <> cell_indices a).
    { intros Heq. pose proof (fresh_ci_not_in h) as Hn. congruence. }
    eexists _, _, _, _. split; [reflexivity|].
    split; [apply slot_set; assumption|].
    split; [exact Hne|].
    split; [apply fresh_cell_not_in|]. cbn.
    split; [rewrite insert_insert_eq; apply lookup_insert_eq|].
    do 5 (split; [reflexivity|]).
    split.
    + rewrite insert_insert_eq, lookup_insert_ne by congruence. exact Ha.
    + rewrite lookup_insert_ne by congruence. exact Hca.
Qed.

End SetItem.

(** Witness of C5, at slot (0, 1) of [sheet_w]. *)
Lemma Spreadsheet__set_item_cases_witness :
  (exists s' h' l,
     Spreadsheet__set_item sheet_w (CVNumber (qf 7)) (PInt 0) (PInt 1) heap_anchored
       = Ok (s', h') /\ slot s' 0 1 = Some l /\ h_cells heap_anchored !! l = None /\
     h_cells h' !! l = Some (mkCell (Some (PInt 0)) (Some (PInt 1)) (Some (qf 7))
                             value_only 0%nat (FConst (Some (qf 7))))) /\
  (exists s' h' l,
     Spreadsheet__set_item sheet_w (CVCell 0%nat) (PInt 0) (PInt 1) heap_anchored
       = Ok (s', h') /\ slot s' 0 1 = Some l /\ h_cells heap_anchored !! l = None /\
     exists c', h_cells h' !! l = Some c' /\ cell_type c' = computational /\
       Cell_value c' = Some (qf 2) /\
       _constructing_words c' = FRef (Some (PInt 0)) (Some (PInt 0))) /\
  (exists s' h' l c',
     Spreadsheet__set_item sheet_w (CVCell 1%nat) (PInt 0) (PInt 1) heap_anchored
       = Ok (s', h') /\ slot s' 0 1 = Some l /\ l <> 1%nat /\
     h_cells heap_anchored !! l = None /\ h_cells h' !! l = Some c' /\
     row c' = Some (PInt 0) /\ column c' = Some (PInt 1) /\
     Cell_value c' = Some (qf 3) /\ cell_type c' = value_only /\
     _constructing_words c' = FConst (Some (qf 3)) /\
     h_cells h' !! 1%nat = Some (value_cell (Some (qf 3)) 0%nat) /\
     h_cis h' !! 0%nat = Some ci22).
Proof.
  destruct (Spreadsheet__set_item_cases sheet_w heap_anchored 0 1 [5%nat; 6%nat]
              eq_refl ltac:(simpl; lia)) as (H1 & H2 & H3).
  split; [exact (H1 (qf 7))|]. split.
  - exact (H2 0%nat _ eq_refl eq_refl).
  - exact (H3 1%nat (value_cell (Some (qf 3)) 0%nat) ci22 eq_refl eq_refl eq_refl).
Defined.

(** Counterexample to C5 as stated ("a live reference, not a value copy"):
    after [sheet.iloc[1, 1] = sheet.iloc[0, 0]] with (0, 0) holding 2, and
    then [sheet.iloc[0, 0] = 10], the slot (1, 1) still holds the value 2
    taken at assignment time (its words are the reference to (0, 0)). *)
Lemma Spreadsheet__set_item_reference_value_is_snapshot :
  match scenario_reassign_source heap0 with
  | Ok (s, h) =>
      option_map Cell_value (slot_cell s h 1 1) = Some (Some (qf 2)) /\
      option_map Cell_value (slot_cell s h 0 0) = Some (Some (qf 10)) /\
      option_map _constructing_words (slot_cell s h 1 1)
        = Some (FRef (Some (PInt 0)) (Some (PInt 0)))
  | Err _ => False
  end.
Proof. vm_compute. repeat split. Qed.

(** ** Reading the grid (C7) *)

Lemma py_getitem_int {A} (l : list A) (z : Z) :
  ((- Z.of_nat (length l) <= z < Z.of_nat (length l))%Z ->
   exists x, l !! Z.to_nat (z mod Z.of_nat (length l)) = Some x /\
             py_getitem l (PInt z) = Ok x) /\
  (~ (- Z.of_nat (length l) <= z < Z.of_nat (length l))%Z ->
   py_getitem l (PInt z) = Err IndexError).
Proof.
  set (n := Z.of_nat (length l)).
  assert (Hlook : forall k : Z, (0 <= k < n)%Z -> exists x, l !! Z.to_nat k = Some x).
  { intros k Hk. apply lookup_lt_is_Some. subst n. lia. }
  unfold py_getitem, py_norm_index. fold n. split.
  - intros Hz. destruct (Z.leb_spec 0 z).
    + assert (Hm : (z mod n = z)%Z) by (apply Z.mod_small; lia).
      rewrite Hm. destruct (Hlook z ltac:(lia)) as [x Hx].
      assert (E : (z <? n)%Z = true) by (apply Z.ltb_lt; lia).
      rewrite E. simpl. rewrite Hx. eauto.
    + assert (Hm : (z mod n = n + z)%Z).
      { rewrite <- (Z.mod_small (n + z) n) by lia.
        rewrite Z.add_comm, <- Zplus_mod_idemp_r, Z_mod_same_full, Z.add_0_r. reflexivity. }
      rewrite Hm. destruct (Hlook (n + z)%Z ltac:(lia)) as [x Hx].
      assert (E1 : (- n <=? z)%Z = true) by (apply Z.leb_le; lia).
      assert (E2 : (z <? 0)%Z = true) by (apply Z.ltb_lt; lia).
      rewrite E1, E2. simpl. rewrite Hx. eauto.
  - intros Hz.
    replace ((0 <=? z) && (z <? n))%Z with false.
    2:{ symmetry. destruct (Z.leb_spec 0 z); [|reflexivity]. simpl. apply Z.ltb_ge. lia. }
    replace ((- n <=? z) && (z <? 0))%Z with false.
    2:{ symmetry. destruct (Z.leb_spec (- n) z); [|reflexivity]. simpl. apply Z.ltb_ge. lia. }
    reflexivity.
Qed.

Section GetItem.
Context {V : Type}.

(** C7 (amended).  On a sheet of [R] rows of [C] cells, [_get_item(x, y)]
    fails with IndexError when [x] or [y] is farther than [1e-6] from its
    [int()] truncation, or when [i = int(x)] lies outside [[-R, R)] or
    [j = int(y)] outside [[-C, C)]; otherwise it returns the object stored
    at [(i mod R, j mod C)]: a near-integral float is truncated and a
    negative index counts from the end, as Python lists do. *)
Theorem Spreadsheet__get_item_spec (s : spreadsheet) (h : heap V) (R C : nat)
  (x y : pynum) :
  length (_sheet s) = R -> Forall (fun r => length r = C) (_sheet s) ->
  (not_integral x || not_integral y = true ->
   Spreadsheet__get_item s x y h = Err IndexError) /\
  (not_integral x || not_integral y = false ->
   ((py_int x < - Z.of_nat R \/ Z.of_nat R <= py_int x \/
     py_int y < - Z.of_nat C \/ Z.of_nat C <= py_int y)%Z ->
    Spreadsheet__get_item s x y h = Err IndexError) /\
   ((- Z.of_nat R <= py_int x < Z.of_nat R)%Z ->
    (- Z.of_nat C <= py_int y < Z.of_nat C)%Z ->
    exists l, slot s (Z.to_nat (py_int x mod Z.of_nat R))
                     (Z.to_nat (py_int y mod Z.of_nat C)) = Some l /\
              Spreadsheet__get_item s x y h = Ok (l, h))).
Proof.
  intros HR HC. unfold Spreadsheet__get_item.
  split; [intros Hb; rewrite Hb; reflexivity|].
  intros Hb. rewrite Hb. unfold_monad. cbv beta iota.
  destruct (py_getitem_int (_sheet s) (py_int x)) as [Hin Hout].
  rewrite HR in Hin, Hout. split.
  - intros Hcases.
    destruct (decide (- Z.of_nat R <= py_int x < Z.of_nat R)%Z) as [Hx|Hx].
    + destruct (Hin Hx) as (r & Hr & ->).
      assert (Hlr : length r = C).
      { exact (proj1 (Forall_lookup _ _) HC _ _ Hr). }
      destruct (py_getitem_int r (py_int y)) as [_ Hout'].
      rewrite Hlr in Hout'. rewrite Hout' by lia. reflexivity.
    + rewrite Hout by exact Hx. reflexivity.
  - intros Hx Hy. destruct (Hin Hx) as (r & Hr & ->).
    assert (Hlr : length r = C).
    { exact (proj1 (Forall_lookup _ _) HC _ _ Hr). }
    destruct (py_getitem_int r (py_int y)) as [Hin' _].
    rewrite Hlr in Hin'. destruct (Hin' Hy) as (l & Hl & ->).
    exists l. split; [|reflexivity]. unfold slot. rewrite Hr. exact Hl.
Qed.

End GetItem.

(** Witness of C7 on [sheet_w]: [(0, 1)] is read, [(1, 0)] and [(0.5, 0)]
    are refused. *)
Lemma Spreadsheet__get_item_spec_witness :
  Spreadsheet__get_item (V := pyfloat) sheet_w (PFloat (1 # 2)) (PInt 0) heap0
    = Err IndexError /\
  Spreadsheet__get_item (V := pyfloat) sheet_w (PInt 1) (PInt 0) heap0 = Err IndexError /\
  exists l, slot sheet_w 0 1 = Some l /\
            Spreadsheet__get_item sheet_w (PInt 0) (PInt 1) heap0 = Ok (l, heap0).
Proof.
  destruct (Spreadsheet__get_item_spec sheet_w heap0 1 2 (PFloat (1 # 2)) (PInt 0)
              eq_refl ltac:(repeat constructor)) as [Ha _].
  destruct (Spreadsheet__get_item_spec sheet_w heap0 1 2 (PInt 1) (PInt 0)
              eq_refl ltac:(repeat constructor)) as [_ Hb].
  destruct (Spreadsheet__get_item_spec sheet_w heap0 1 2 (PInt 0) (PInt 1)
              eq_refl ltac:(repeat constructor)) as [_ Hc].
  split; [exact (Ha eq_refl)|]. split.
  - exact (proj1 (Hb eq_refl) ltac:(simpl; lia)).
  - exact (proj2 (Hc eq_refl) ltac:(simpl; lia) ltac:(simpl; lia)).
Defined.

(** Counterexample to C7 as stated: on a fresh 2 x 2 sheet, the negative
    row [-1] and the non-integer row [1.0000001] are not refused; both read
    the cell of row 1. *)
Lemma Spreadsheet__get_item_accepts_negative_and_near_integer :
  exists l h, get_row_one heap0 = Ok (l, h) /\
              get_row_minus_one heap0 = Ok (l, h) /\
              get_row_near_one heap0 = Ok (l, h).
Proof. eexists _, _. split; [vm_compute; reflexivity|]. split; vm_compute; reflexivity. Qed.

(** ** The row loop of [expand_using_cell_indices] (C9) *)

Section Evolves.
Context {V : Type}.
Implicit Types (h : heap V) (c : cell V).

Lemma same_but_ci_refl c : same_but_ci c c.
Proof. unfold same_but_ci. auto 6. Qed.

Lemma same_but_ci_trans c1 c2 c3 :
  same_but_ci c1 c2 -> same_but_ci c2 c3 -> same_but_ci c1 c3.
Proof. unfold same_but_ci. intuition congruence. Qed.

Lemma same_but_ci_eq c c' :
  same_but_ci c c' -> cell_indices c' = cell_indices c -> c' = c.
Proof.
  destruct c, c'. unfold same_but_ci. simpl. intros (-> & -> & -> & -> & ->) ->.
  reflexivity.
Qed.

Lemma evolves_refl ci h : evolves ci h h.
Proof.
  split; [reflexivity|]. split.
  - intros l c Hl. exists c. split; [exact Hl|]. split; [apply same_but_ci_refl|auto].
  - intros l c' H1 H2. congruence.
Qed.

Lemma evolves_trans ci h1 h2 h3 :
  evolves ci h1 h2 -> evolves ci h2 h3 -> evolves ci h1 h3.
Proof.
  intros (Hc1 & Ho1 & Hn1) (Hc2 & Ho2 & Hn2). split; [congruence|]. split.
  - intros l c Hl. destruct (Ho1 l c Hl) as (c' & Hl' & Hs' & Hi').
    destruct (Ho2 l c' Hl') as (c'' & Hl'' & Hs'' & Hi'').
    exists c''. split; [exact Hl''|]. split; [eauto using same_but_ci_trans|auto].
  - intros l c'' H1 H3. destruct (h_cells h2 !! l) as [c'|] eqn:H2.
    + pose proof (Hn1 l c' H1 H2) as ->.
      destruct (Ho2 l _ H2) as (c3 & Hl3 & Hs3 & Hi3).
      rewrite Hl3 in H3. injection H3 as <-.
      exact (same_but_ci_eq _ _ Hs3 (Hi3 eq_refl)).
    + exact (Hn2 l c'' H2 H3).
Qed.

Lemma evolves_live ci h h' l :
  evolves ci h h' -> is_Some (h_cells h !! l) -> is_Some (h_cells h' !! l).
Proof.
  intros (_ & Ho & _) [c Hc]. destruct (Ho l c Hc) as (c' & -> & _). eauto.
Qed.

Lemma evolves_dead ci h h' l :
  evolves ci h h' -> h_cells h' !! l = None -> h_cells h !! l = None.
Proof.
  intros Hev Hn. destruct (h_cells h !! l) eqn:E; [|reflexivity].
  destruct (evolves_live ci h h' l Hev ltac:(eauto)) as [? Hs]. congruence.
Qed.

Lemma evolves_keep_ci ci h h' l c :
  evolves ci h h' -> h_cells h !! l = Some c -> cell_indices c = ci ->
  exists c', h_cells h' !! l = Some c' /\ cell_indices c' = ci.
Proof.
  intros (_ & Ho & _) Hl Hci. destruct (Ho l c Hl) as (c' & ? & _ & ?). eauto.
Qed.

Lemma evolves_alloc_empty ci h :
  evolves ci h (mkHeap (<[fresh (dom (h_cells h)) := value_cell None ci]> (h_cells h))
                       (h_cis h)).
Proof.
  pose proof (fresh_cell_not_in h) as Hf.
  split; [reflexivity|]. split.
  - intros l c Hl. exists c. simpl. rewrite lookup_insert_ne by (intros E; subst l; congruence).
    split; [exact Hl|]. split; [apply same_but_ci_refl|auto].
  - intros l c' H1 H2. simpl in H2.
    destruct (decide (l = fresh (dom (h_cells h)))) as [->|Hne].
    + rewrite lookup_insert_eq in H2. congruence.
    + rewrite lookup_insert_ne in H2 by congruence. congruence.
Qed.

Lemma evolves_set_ci ci h l c :
  h_cells h !! l = Some c ->
  evolves ci h (mkHeap (<[l := mkCell (row c) (column c) (_value c) (cell_type c) ci
                                      (_constructing_words c)]> (h_cells h))
                       (h_cis h)).
Proof.
  intros Hl. split; [reflexivity|]. split.
  - intros l' c0 Hl'. simpl. destruct (decide (l' = l)) as [->|Hne].
    + rewrite lookup_insert_eq. eexists; split; [reflexivity|].
      rewrite Hl in Hl'. injection Hl' as <-.
      split; [|reflexivity]. unfold same_but_ci. simpl. auto 6.
    + rewrite lookup_insert_ne by congruence. exists c0.
      split; [exact Hl'|]. split; [apply same_but_ci_refl|auto].
  - intros l' c' H1 H2. simpl in H2. destruct (decide (l' = l)) as [->|Hne].
    + congruence.
    + rewrite lookup_insert_ne in H2 by congruence. congruence.
Qed.

End Evolves.

Section ExpandLoops.
Context {V : Type}.
Implicit Types (h : heap V).

Lemma empty_cell_ok ci h :
  empty_cell ci h =
  Ok (fresh (dom (h_cells h)),
      mkHeap (<[fresh (dom (h_cells h)) := value_cell None ci]> (h_cells h)) (h_cis h)).
Proof. reflexivity. Qed.

Lemma allocated_mono ci h0 h h' h'' ls :
  evolves ci h' h'' -> (forall l, h_cells h !! l = None -> h_cells h0 !! l = None) ->
  allocated h h' ls -> allocated h0 h'' ls.
Proof.
  intros Hev Hd Ha. eapply Forall_impl; [exact Ha|].
  intros l [Hn Hs]. split; [auto|]. eapply evolves_live; eauto.
Qed.

Lemma mapM_empty_cell ci (xs : list nat) h :
  exists row h', mapM (fun _ => empty_cell ci) xs h = Ok (row, h') /\
    length row = length xs /\ evolves ci h h' /\ allocated h h' row.
Proof.
  revert h. induction xs as [|x xs IH]; intros h.
  - exists [], h. split; [reflexivity|]. split; [reflexivity|].
    split; [apply evolves_refl|constructor].
  - set (l := fresh (dom (h_cells h))).
    set (h1 := mkHeap (<[l := value_cell None ci]> (h_cells h)) (h_cis h)).
    destruct (IH h1) as (row & h' & E & Hlen & Hev & Ha).
    exists (l :: row), h'. cbn [mapM]. unfold bind at 1. rewrite empty_cell_ok.
    fold l. fold h1. unfold bind. rewrite E. split; [reflexivity|].
    split; [simpl; congruence|].
    assert (Hev1 : evolves ci h h1) by apply evolves_alloc_empty.
    split; [eapply evolves_trans; eauto|]. constructor.
    + split; [apply fresh_cell_not_in|]. eapply evolves_live; [exact Hev|].
      simpl. rewrite lookup_insert_eq. eauto.
    + eapply (allocated_mono ci); [apply evolves_refl| |exact Ha].
      intros l' Hl'. eapply evolves_dead; eauto.
Qed.

Lemma foldM_expand_column_step (k : nat) (xs : list nat) (s : spreadsheet)
  (r0 : list loc) h :
  _sheet s !! k = Some r0 ->
  exists new h',
    foldM (expand_column_step k) s xs h
      = Ok (mkSpreadsheet (_cell_indices s) (<[k := r0 ++ new]> (_sheet s)), h') /\
    length new = length xs /\ evolves (_cell_indices s) h h' /\ allocated h h' new.
Proof.
  revert s r0 h. induction xs as [|x xs IH]; intros s r0 h Hk.
  - exists [], h. rewrite app_nil_r, list_insert_id by exact Hk.
    destruct s. split; [reflexivity|]. split; [reflexivity|].
    split; [apply evolves_refl|constructor].
  - set (l := fresh (dom (h_cells h))).
    set (h1 := mkHeap (<[l := value_cell None (_cell_indices s)]> (h_cells h)) (h_cis h)).
    set (s1 := mkSpreadsheet (_cell_indices s) (<[k := r0 ++ [l]]> (_sheet s))).
    assert (Hk1 : _sheet s1 !! k = Some (r0 ++ [l])).
    { simpl. apply list_lookup_insert_eq. apply lookup_lt_is_Some. eauto. }
    destruct (IH s1 (r0 ++ [l]) h1 Hk1) as (new & h' & E & Hlen & Hev & Ha).
    exists (l :: new), h'. cbn [foldM]. unfold bind at 1.
    assert (Estep : expand_column_step k s x h = Ok (s1, h1)).
    { unfold expand_column_step, bind, lift at 1.
      rewrite (py_getitem_nat _ _ _ Hk). rewrite empty_cell_ok. reflexivity. }
    rewrite Estep, E. simpl. rewrite list_insert_insert_eq, <- app_assoc.
    split; [reflexivity|]. split; [simpl; congruence|].
    assert (Hev1 : evolves (_cell_indices s) h h1) by apply evolves_alloc_empty.
    split; [eapply evolves_trans; eauto|]. constructor.
    + split; [apply fresh_cell_not_in|]. eapply evolves_live; [exact Hev|].
      simpl. rewrite lookup_insert_eq. eauto.
    + eapply (allocated_mono (_cell_indices s)); [apply evolves_refl| |exact Ha].
      intros l' Hl'. eapply evolves_dead; eauto.
Qed.

Lemma foldM_refresh_step (k : nat) (s : spreadsheet) (r : list loc) (j d : nat) h :
  _sheet s !! k = Some r -> (j + d <= length r)%nat ->
  Forall (fun l => is_Some (h_cells h !! l)) r ->
  exists h', foldM (refresh_step k) s (seq j d) h = Ok (s, h') /\
    evolves (_cell_indices s) h h' /\
    forall j' l, (j <= j' < j + d)%nat -> r !! j' = Some l ->
      exists c, h_cells h' !! l = Some c /\ cell_indices c = _cell_indices s.
Proof.
  revert j h. induction d as [|d IH]; intros j h Hk Hjd Hlive.
  - exists h. split; [reflexivity|]. split; [apply evolves_refl|]. intros; lia.
  - destruct (lookup_lt_is_Some_2 r j ltac:(lia)) as [l Hl].
    destruct (proj1 (Forall_lookup _ _) Hlive _ _ Hl) as [c Hc].
    set (c1 := mkCell (row c) (column c) (_value c) (cell_type c) (_cell_indices s)
                      (_constructing_words c)).
    set (h1 := mkHeap (<[l := c1]> (h_cells h)) (h_cis h)).
    assert (Hev1 : evolves (_cell_indices s) h h1) by (apply evolves_set_ci; exact Hc).
    assert (Hlive1 : Forall (fun l => is_Some (h_cells h1 !! l)) r).
    { eapply Forall_impl; [exact Hlive|]. intros l'. apply evolves_live with (1 := Hev1). }
    destruct (IH (S j) h1 Hk ltac:(lia) Hlive1) as (h' & E & Hev & Hci).
    exists h'. cbn [seq foldM]. unfold bind at 1.
    assert (Estep : refresh_step k s j h = Ok (s, h1)).
    { unfold refresh_step, Spreadsheet_iloc, Spreadsheet__get_item.
      rewrite !not_integral_int. cbn [orb]. unfold bind at 1 2, lift at 1 2.
      cbn [py_int].
      rewrite (py_getitem_nat _ _ _ Hk), (py_getitem_nat _ _ _ Hl).
      unfold set_cell_indices, bind, get_cell. rewrite Hc. reflexivity. }
    rewrite Estep, E. split; [reflexivity|].
    split; [eapply evolves_trans; eauto|].
    intros j' l' Hj' Hl'. destruct (decide (j' = j)) as [->|Hne].
    + rewrite Hl in Hl'. injection Hl' as <-.
      eapply evolves_keep_ci; [exact Hev| |].
      * simpl. rewrite lookup_insert_eq. reflexivity.
      * reflexivity.
    + apply Hci with j'; [lia|exact Hl'].
Qed.

End ExpandLoops.

Lemma bind_Ok {V A B} (m : M V A) (k : A -> M V B) (h : heap V) (a : A) (h' : heap V) :
  m h = Ok (a, h') -> bind m k h = k a h'.
Proof. intros E. unfold bind. rewrite E. reflexivity. Qed.

Section ExpandRow.
Context {V : Type}.
Implicit Types (h : heap V).

Lemma expand_row_inv (R0 C0 C1 : nat) (ci : loc) (cir : cellindices)
  (Sh0 : list (list loc)) (h0 : heap V) (k : nat) (s : spreadsheet) h :
  h_cis h0 !! ci = Some cir -> ci_cols cir = C1 ->
  length Sh0 = R0 -> Forall (fun r => length r = C0) Sh0 -> (C0 <= C1)%nat ->
  expand_inv R0 C1 ci Sh0 h0 k s h ->
  exists s' h', expand_row (R0, C0) s k h = Ok (s', h') /\
                expand_inv R0 C1 ci Sh0 h0 (S k) s' h'.
Proof.
  intros Hcir HC1 HR0 HS HC01 (Hc & Hev & Hlen & Hhi & Hlo & Hslot).
  destruct s as [sci sh]. simpl in *. subst sci.
  assert (Eshape : Spreadsheet_shape (mkSpreadsheet ci sh) h = Ok ((ci_rows cir, C1), h)).
  { unfold Spreadsheet_shape, bind, get_ci. simpl.
    destruct Hev as (-> & _). rewrite Hcir, HC1. reflexivity. }
  unfold expand_row. rewrite (bind_Ok _ _ _ _ _ Eshape). cbn [fst snd _cell_indices _sheet].
  destruct (Nat.leb_spec R0 k) as [Hk|Hk].
  - (* a wholly new row *)
    destruct (mapM_empty_cell (V := V) ci (seq 0 C1) h) as (row & h1 & E1 & Hlr & Hev1 & Ha1).
    rewrite length_seq in Hlr.
    assert (Hshk : length sh = k) by lia.
    set (s1 := mkSpreadsheet ci (sh ++ [row])).
    assert (Hk1 : _sheet s1 !! k = Some row).
    { simpl. rewrite lookup_app_r by lia. rewrite Hshk, Nat.sub_diag. reflexivity. }
    assert (Hlive1 : Forall (fun l => is_Some (h_cells h1 !! l)) row).
    { eapply Forall_impl; [exact Ha1|]. intros l [_ ?]. assumption. }
    destruct (foldM_refresh_step k s1 row 0 C1 h1 Hk1 ltac:(lia) Hlive1)
      as (h' & E2 & Hev2 & Hci2).
    assert (Ein : (do row <- mapM (fun _ => empty_cell ci) (seq 0 C1) ;
                   ret (mkSpreadsheet ci (sh ++ [row]))) h = Ok (s1, h1)).
    { unfold bind. rewrite E1. reflexivity. }
    exists s1, h'. rewrite (bind_Ok _ _ _ _ _ Ein). split; [exact E2|].
    assert (Hevh : evolves ci h h') by (eapply evolves_trans; eauto).
    split; [reflexivity|]. split; [eapply evolves_trans; eauto|].
    split; [simpl; rewrite length_app; simpl; lia|].
    split.
    { intros i Hi. simpl. rewrite <- Hhi by lia.
      rewrite !lookup_ge_None_2 by (rewrite ?length_app; simpl; lia). reflexivity. }
    split.
    { intros i Hi. destruct (decide (i = k)) as [->|Hne].
      - exists row. split; [exact Hk1|]. split; [lia|].
        intros j l Hl. apply (Hci2 j l); [|exact Hl].
        apply lookup_lt_Some in Hl. lia.
      - destruct (Hlo i ltac:(lia)) as (r & Hr & Hlr' & Hcr).
        exists r. simpl. rewrite lookup_app_l by (apply lookup_lt_Some in Hr; exact Hr).
        split; [exact Hr|]. split; [exact Hlr'|].
        intros j l Hl. destruct (Hcr j l Hl) as (c & Hcl & Hcc).
        eapply evolves_keep_ci; eauto. }
    intros i j l Hs. unfold slot in Hs. simpl in Hs.
    destruct (decide (i < k)%nat) as [Hik|Hik].
    + rewrite lookup_app_l in Hs by lia.
      destruct (Hslot i j l Hs) as [Hl Hm]. split; [eapply evolves_live; eauto|exact Hm].
    + rewrite lookup_app_r in Hs by lia. rewrite Hshk in Hs.
      destruct (i - k)%nat as [|i'] eqn:Ei; [|simpl in Hs; rewrite ?lookup_nil in Hs; discriminate].
      simpl in Hs. assert (i = k) by lia. subst i.
      destruct (proj1 (Forall_lookup _ _) Ha1 _ _ Hs) as [Hn Hl1].
      split; [eapply evolves_live; [exact Hev2|exact Hl1]|].
      rewrite (lookup_ge_None_2 Sh0 k) by lia. simpl.
      eapply evolves_dead; [exact Hev|exact Hn].
  - (* the columns of an existing row *)
    assert (Hshk : sh !! k = Sh0 !! k) by (apply Hhi; lia).
    destruct (lookup_lt_is_Some_2 Sh0 k ltac:(lia)) as [r0 Hr0].
    rewrite Hr0 in Hshk.
    assert (Hlr0 : length r0 = C0) by exact (proj1 (Forall_lookup _ _) HS _ _ Hr0).
    destruct (foldM_expand_column_step k (seq 0 (C1 - C0)) (mkSpreadsheet ci sh) r0 h Hshk)
      as (new & h1 & E1 & Hln & Hev1 & Ha1).
    rewrite length_seq in Hln. simpl in E1, Hev1.
    set (s1 := mkSpreadsheet ci (<[k := r0 ++ new]> sh)).
    assert (Hk1 : _sheet s1 !! k = Some (r0 ++ new)).
    { simpl. apply list_lookup_insert_eq. lia. }
    assert (Hlive1 : Forall (fun l => is_Some (h_cells h1 !! l)) (r0 ++ new)).
    { apply Forall_app. split.
      - apply Forall_lookup. intros j l Hl.
        assert (Hs : slot (mkSpreadsheet ci sh) k j = Some l).
        { unfold slot. simpl. rewrite Hshk. exact Hl. }
        eapply evolves_live; [exact Hev1|]. exact (proj1 (Hslot k j l Hs)).
      - eapply Forall_impl; [exact Ha1|]. intros l [_ ?]. assumption. }
    destruct (foldM_refresh_step k s1 (r0 ++ new) 0 C1 h1 Hk1
                ltac:(rewrite length_app; lia) Hlive1) as (h' & E2 & Hev2 & Hci2).
    exists s1, h'. rewrite (bind_Ok _ _ _ _ _ E1). split; [exact E2|].
    assert (Hevh : evolves ci h h') by (eapply evolves_trans; eauto).
    split; [reflexivity|]. split; [eapply evolves_trans; eauto|].
    split; [simpl; rewrite length_insert; lia|].
    split.
    { intros i Hi. simpl. rewrite list_lookup_insert_ne by lia. apply Hhi. lia. }
    split.
    { intros i Hi. destruct (decide (i = k)) as [->|Hne].
      - exists (r0 ++ new). split; [exact Hk1|]. split; [rewrite length_app; lia|].
        intros j l Hl. apply (Hci2 j l); [|exact Hl].
        apply lookup_lt_Some in Hl. rewrite length_app in Hl. lia.
      - destruct (Hlo i ltac:(lia)) as (r & Hr & Hlr' & Hcr).
        exists r. simpl. rewrite list_lookup_insert_ne by congruence.
        split; [exact Hr|]. split; [exact Hlr'|].
        intros j l Hl. destruct (Hcr j l Hl) as (c & Hcl & Hcc).
        eapply evolves_keep_ci; eauto. }
    intros i j l Hs. unfold slot in Hs. simpl in Hs.
    destruct (decide (i = k)) as [->|Hne].
    + rewrite list_lookup_insert_eq in Hs by lia. simpl in Hs.
      rewrite Hr0. simpl.
      destruct (decide (j < C0)%nat) as [Hj|Hj].
      * rewrite lookup_app_l in Hs by lia.
        assert (Hs0 : slot (mkSpreadsheet ci sh) k j = Some l).
        { unfold slot. simpl. rewrite Hshk. exact Hs. }
        destruct (Hslot k j l Hs0) as [Hl Hm]. rewrite Hr0 in Hm. simpl in Hm.
        split; [eapply evolves_live; eauto|exact Hm].
      * rewrite lookup_app_r in Hs by lia.
        destruct (proj1 (Forall_lookup _ _) Ha1 _ _ Hs) as [Hn Hl1].
        split; [eapply evolves_live; [exact Hev2|exact Hl1]|].
        rewrite (lookup_ge_None_2 r0 j) by lia.
        eapply evolves_dead; [exact Hev|exact Hn].
    + rewrite list_lookup_insert_ne in Hs by congruence.
      assert (Hs0 : slot (mkSpreadsheet ci sh) i j = Some l) by exact Hs.
      destruct (Hslot i j l Hs0) as [Hl Hm]. split; [eapply evolves_live; eauto|exact Hm].
Qed.

End ExpandRow.

Section ExpandMain.
Context {V : Type}.
Implicit Types (h : heap V).

Lemma expand_rows_inv (R0 C0 C1 : nat) (ci : loc) (cir : cellindices)
  (Sh0 : list (list loc)) (h0 : heap V) (d : nat) :
  h_cis h0 !! ci = Some cir -> ci_cols cir = C1 ->
  length Sh0 = R0 -> Forall (fun r => length r = C0) Sh0 -> (C0 <= C1)%nat ->
  forall k s h, expand_inv R0 C1 ci Sh0 h0 k s h ->
  exists s' h', foldM (expand_row (R0, C0)) s (seq k d) h = Ok (s', h') /\
                expand_inv R0 C1 ci Sh0 h0 (k + d) s' h'.
Proof.
  intros Hcir HC1 HR0 HS HC01. induction d as [|d IH]; intros k s h Hinv.
  - exists s, h. rewrite Nat.add_0_r. split; [reflexivity|exact Hinv].
  - destruct (expand_row_inv R0 C0 C1 ci cir Sh0 h0 k s h Hcir HC1 HR0 HS HC01 Hinv)
      as (s1 & h1 & E1 & Hinv1).
    destruct (IH (S k) s1 h1 Hinv1) as (s' & h' & E & Hinv').
    exists s', h'. cbn [seq foldM]. rewrite (bind_Ok _ _ _ _ _ E1).
    rewrite Nat.add_succ_r. split; [exact E|exact Hinv'].
Qed.

Lemma slot_lookup (s : spreadsheet) (i j : nat) (r : list loc) :
  _sheet s !! i = Some r -> slot s i j = r !! j.
Proof. intros Hr. unfold slot. rewrite Hr. reflexivity. Qed.

Lemma slot_live (s : spreadsheet) h :
  Forall (Forall (fun l => is_Some (h_cells h !! l))) (_sheet s) ->
  forall i j l, slot s i j = Some l -> is_Some (h_cells h !! l).
Proof.
  intros Hl i j l Hs. unfold slot in Hs.
  destruct (_sheet s !! i) as [r|] eqn:Hr; [|discriminate]. simpl in Hs.
  exact (proj1 (Forall_lookup _ _) (proj1 (Forall_lookup _ _) Hl _ _ Hr) _ _ Hs).
Qed.

End ExpandMain.

Section ExpandSpec.
Context {V : Type}.
Implicit Types (h : heap V).

Lemma Spreadsheet_expand_using_cell_indices_inv (s : spreadsheet) h (ci : loc)
  (ci0 cir : cellindices) :
  h_cis h !! _cell_indices s = Some ci0 -> h_cis h !! ci = Some cir ->
  length (_sheet s) = ci_rows ci0 -> Forall (fun r => length r = ci_cols ci0) (_sheet s) ->
  Forall (Forall (fun l => is_Some (h_cells h !! l))) (_sheet s) ->
  (ci_cols ci0 <= ci_cols cir)%nat ->
  exists s' h',
    Spreadsheet_expand_using_cell_indices s ci h = Ok (s', h') /\
    expand_inv (ci_rows ci0) (ci_cols cir) (fresh (dom (h_cis h))) (_sheet s)
      (mkHeap (h_cells h) (<[fresh (dom (h_cis h)) := cir]> (h_cis h)))
      (ci_rows cir) s' h'.
Proof.
  intros Hci0 Hcir HR HC Hlive HC01.
  set (ci2 := fresh (dom (h_cis h))).
  set (h2 := mkHeap (h_cells h) (<[ci2 := cir]> (h_cis h))).
  set (s0 := mkSpreadsheet ci2 (_sheet s)).
  assert (E1 : Spreadsheet_shape s h = Ok ((ci_rows ci0, ci_cols ci0), h)).
  { unfold Spreadsheet_shape, bind, get_ci. rewrite Hci0. reflexivity. }
  assert (E2 : deepcopy_ci ci h = Ok (ci2, h2)).
  { unfold deepcopy_ci, bind, get_ci. rewrite Hcir. reflexivity. }
  assert (Hcir2 : h_cis h2 !! ci2 = Some cir) by (simpl; apply lookup_insert_eq).
  assert (E3 : Spreadsheet_shape s0 h2 = Ok ((ci_rows cir, ci_cols cir), h2)).
  { unfold Spreadsheet_shape, bind, get_ci. simpl _cell_indices. rewrite Hcir2. reflexivity. }
  assert (Hinv0 : expand_inv (ci_rows ci0) (ci_cols cir) ci2 (_sheet s) h2 0 s0 h2).
  { split; [reflexivity|]. split; [apply evolves_refl|].
    split; [simpl; lia|]. split; [reflexivity|]. split; [intros; lia|].
    intros i j l Hs. split.
    - exact (slot_live s h Hlive i j l Hs).
    - unfold slot in Hs. simpl in Hs. rewrite Hs. reflexivity. }
  destruct (expand_rows_inv (ci_rows ci0) (ci_cols ci0) (ci_cols cir) ci2 cir (_sheet s) h2
              (ci_rows cir) Hcir2 eq_refl HR HC HC01 0 s0 h2 Hinv0)
    as (s' & h' & E4 & Hinv).
  exists s', h'. split; [|exact Hinv].
  unfold Spreadsheet_expand_using_cell_indices.
  rewrite (bind_Ok _ _ _ _ _ E1), (bind_Ok _ _ _ _ _ E2). fold s0.
  rewrite (bind_Ok _ _ _ _ _ E3). exact E4.
Qed.

(** C9.  Let [s] be a sheet over a live CellIndices object of shape
    [(R0, C0)] holding [R0] rows of [C0] live cells.  [expand(n, m, ...)]
    succeeds, and afterwards: the shape is [(R0 + n, C0 + m)] and the grid
    has that many rows of that many cells; every pre-existing slot still
    holds the same cell object, whose value, type, position and words are
    unchanged; every new slot holds a fresh empty free Value cell; every
    cell of the grid points at the grid's CellIndices, a new object; and the
    old CellIndices object is left as it was. *)
Theorem Spreadsheet_expand_spec (s : spreadsheet) h (ci0 : cellindices)
  (n m : nat) (rl cl : list string) :
  h_cis h !! _cell_indices s = Some ci0 ->
  length (_sheet s) = ci_rows ci0 ->
  Forall (fun r => length r = ci_cols ci0) (_sheet s) ->
  Forall (Forall (fun l => is_Some (h_cells h !! l))) (_sheet s) ->
  exists s' h',
    Spreadsheet_expand s n m rl cl h = Ok (s', h') /\
    Spreadsheet_shape s' h' = Ok ((ci_rows ci0 + n, ci_cols ci0 + m)%nat, h') /\
    length (_sheet s') = (ci_rows ci0 + n)%nat /\
    Forall (fun r => length r = (ci_cols ci0 + m)%nat) (_sheet s') /\
    (forall i j l c, slot s i j = Some l -> h_cells h !! l = Some c ->
       slot s' i j = Some l /\
       exists c', h_cells h' !! l = Some c' /\ same_but_ci c c' /\
                  Cell_value c' = Cell_value c) /\
    (forall i j l, slot s' i j = Some l -> slot s i j = None ->
       h_cells h !! l = None /\
       h_cells h' !! l = Some (value_cell None (_cell_indices s'))) /\
    (forall i j l, slot s' i j = Some l ->
       exists c, h_cells h' !! l = Some c /\ cell_indices c = _cell_indices s') /\
    h_cis h !! _cell_indices s' = None /\
    h_cis h' !! _cell_indices s = Some ci0.
Proof.
  intros Hci0 HR HC Hlive.
  set (ci1 := fresh (dom (h_cis h))).
  set (cir := mkCellIndices (ci_rows ci0 + n) (ci_cols ci0 + m)
                (ci_rows_labels ci0 ++ rl) (ci_columns_labels ci0 ++ cl)).
  set (h1 := mkHeap (h_cells h) (<[ci1 := cir]> (h_cis h))).
  assert (Hne1 : _cell_indices s <> ci1).
  { intros E. pose proof (fresh_ci_not_in h) as Hf. fold ci1 in Hf. congruence. }
  assert (E1 : CellIndices_expand_size (_cell_indices s) n m rl cl h = Ok (ci1, h1)).
  { unfold CellIndices_expand_size, bind, get_ci. rewrite Hci0. reflexivity. }
  assert (Hci0' : h_cis h1 !! _cell_indices s = Some ci0).
  { simpl. rewrite lookup_insert_ne by congruence. exact Hci0. }
  assert (Hcir : h_cis h1 !! ci1 = Some cir) by (simpl; apply lookup_insert_eq).
  destruct (Spreadsheet_expand_using_cell_indices_inv s h1 ci1 ci0 cir Hci0' Hcir HR HC
              Hlive ltac:(simpl; lia)) as (s' & h' & E2 & Hinv).
  set (ci2 := fresh (dom (h_cis h1))) in Hinv.
  set (h2 := mkHeap (h_cells h1) (<[ci2 := cir]> (h_cis h1))) in Hinv.
  destruct Hinv as (Hc & Hev & Hlen & _ & Hlo & Hslot).
  simpl ci_rows in Hlen, Hlo. simpl ci_cols in Hlo.
  assert (Hf2 : h_cis h1 !! ci2 = None) by apply fresh_ci_not_in.
  assert (Hne2 : _cell_indices s <> ci2) by (intros E; congruence).
  assert (Hcis' : h_cis h' = <[ci2 := cir]> (h_cis h1)) by (destruct Hev as (-> & _); reflexivity).
  assert (Hrows : forall i, (i < ci_rows ci0 + n)%nat -> exists r, _sheet s' !! i = Some r /\
            length r = (ci_cols ci0 + m)%nat /\ forall j l, r !! j = Some l ->
            exists c, h_cells h' !! l = Some c /\ cell_indices c = ci2).
  { intros i Hi. exact (Hlo i Hi). }
  assert (Hlen' : length (_sheet s') = (ci_rows ci0 + n)%nat) by lia.
  exists s', h'. split.
  { unfold Spreadsheet_expand. rewrite (bind_Ok _ _ _ _ _ E1). exact E2. }
  split.
  { unfold Spreadsheet_shape, bind, get_ci. rewrite Hc, Hcis', lookup_insert_eq.
    reflexivity. }
  split; [exact Hlen'|].
  split.
  { apply Forall_lookup. intros i r Hr.
    destruct (Hrows i ltac:(apply lookup_lt_Some in Hr; lia)) as (r' & Hr' & Hl' & _).
    congruence. }
  split.
  { intros i j l c Hs Hl.
    pose proof Hs as Hs'. unfold slot in Hs'.
    destruct (_sheet s !! i) as [r0|] eqn:Hr0; [|discriminate]. simpl in Hs'.
    assert (Hi : (i < ci_rows ci0)%nat) by (apply lookup_lt_Some in Hr0; lia).
    assert (Hj : (j < ci_cols ci0)%nat).
    { apply lookup_lt_Some in Hs'. rewrite (proj1 (Forall_lookup _ _) HC _ _ Hr0) in Hs'.
      exact Hs'. }
    destruct (Hrows i ltac:(lia)) as (r & Hr & Hlr & _).
    destruct (lookup_lt_is_Some_2 r j ltac:(lia)) as [l' Hl'].
    assert (Hsl : slot s' i j = Some l') by (rewrite (slot_lookup _ _ _ _ Hr); exact Hl').
    destruct (Hslot i j l' Hsl) as [_ Hm]. rewrite Hr0 in Hm. simpl in Hm.
    rewrite Hs' in Hm. subst l'. split; [exact Hsl|].
    destruct Hev as (_ & Ho & _).
    destruct (Ho l c Hl) as (c' & Hc' & Hsame & _).
    exists c'. split; [exact Hc'|]. split; [exact Hsame|].
    unfold Cell_value. destruct Hsame as (_ & _ & Hv & _). exact Hv. }
  split.
  { intros i j l Hs Hnone. destruct (Hslot i j l Hs) as [[c Hl] Hm].
    assert (Hm' : h_cells h2 !! l = None).
    { unfold slot in Hnone. destruct (_sheet s !! i); exact Hm || (simpl in Hnone, Hm;
        rewrite Hnone in Hm; exact Hm). }
    split; [exact Hm'|]. rewrite Hc. rewrite Hl.
    destruct Hev as (_ & _ & Hn). rewrite (Hn l c Hm' Hl). reflexivity. }
  split.
  { intros i j l Hs. rewrite Hc. unfold slot in Hs.
    destruct (_sheet s' !! i) as [r|] eqn:Hr; [|discriminate]. simpl in Hs.
    assert (Hi : (i < ci_rows ci0 + n)%nat) by (apply lookup_lt_Some in Hr; lia).
    destruct (Hrows i Hi) as (r' & Hr' & _ & Hcr). rewrite Hr in Hr'. injection Hr' as <-.
    exact (Hcr j l Hs). }
  split.
  { rewrite Hc. simpl in Hf2. destruct (decide (ci2 = ci1)) as [E|Hne].
    - rewrite E, lookup_insert_eq in Hf2. discriminate.
    - rewrite lookup_insert_ne in Hf2 by congruence. exact Hf2. }
  rewrite Hcis', lookup_insert_ne by congruence. exact Hci0'.
Qed.

End ExpandSpec.

Section CisFrame.
Context {V : Type}.

Lemma cis_frame_ret {A} (a : A) : cis_frame (V := V) (ret a).
Proof. intros h x h' E. injection E as _ <-. reflexivity. Qed.

Lemma cis_frame_raise {A} (e : pyerr) : cis_frame (V := V) (A := A) (raise e).
Proof. intros h x h' E. discriminate. Qed.

Lemma cis_frame_lift {A} (r : pyres A) : cis_frame (V := V) (lift r).
Proof. intros h x h' E. unfold lift in E. destruct r; [injection E as _ <-; reflexivity|discriminate]. Qed.

Lemma cis_frame_bind {A B} (m : M V A) (k : A -> M V B) :
  cis_frame m -> (forall a, cis_frame (k a)) -> cis_frame (bind m k).
Proof.
  intros Hm Hk h b h' E. unfold bind in E.
  destruct (m h) as [[a h1]|] eqn:E1; [|discriminate].
  rewrite (Hk a h1 b h' E). exact (Hm h a h1 E1).
Qed.

Lemma cis_frame_get_cell l : cis_frame (V := V) (get_cell l).
Proof. intros h x h' E. unfold get_cell in E. destruct (h_cells h !! l); [injection E as _ <-; reflexivity|discriminate]. Qed.

Lemma cis_frame_put_cell l c : cis_frame (V := V) (put_cell l c).
Proof. intros h x h' E. injection E as _ <-. reflexivity. Qed.

Lemma cis_frame_alloc_cell c : cis_frame (V := V) (alloc_cell c).
Proof. intros h x h' E. injection E as _ <-. reflexivity. Qed.

Lemma cis_frame_get_ci l : cis_frame (V := V) (get_ci l).
Proof. intros h x h' E. unfold get_ci in E. destruct (h_cis h !! l); [injection E as _ <-; reflexivity|discriminate]. Qed.

Lemma cis_frame_mapM {A B} (f : A -> M V B) (xs : list A) :
  (forall x, cis_frame (f x)) -> cis_frame (mapM f xs).
Proof.
  intros Hf. induction xs as [|x xs IH]; cbn [mapM];
    eauto using cis_frame_ret, cis_frame_bind.
Qed.

Lemma cis_frame_foldM {A B} (f : B -> A -> M V B) (xs : list A) :
  (forall acc x, cis_frame (f acc x)) -> forall acc, cis_frame (foldM f acc xs).
Proof.
  intros Hf. induction xs as [|x xs IH]; intros acc; cbn [foldM];
    eauto using cis_frame_ret, cis_frame_bind.
Qed.

Lemma cis_frame_Cell_new r c v ci ct w : cis_frame (V := V) (Cell_new r c v ci ct w).
Proof. unfold Cell_new. destruct r, c; auto using cis_frame_raise, cis_frame_alloc_cell. Qed.

Lemma cis_frame_if {A} (b : bool) (m1 m2 : M V A) :
  cis_frame m1 -> cis_frame m2 -> cis_frame (if b then m1 else m2).
Proof. destruct b; auto. Qed.

End CisFrame.

Create HintDb cis_frame.
#[export] Hint Resolve cis_frame_if cis_frame_ret cis_frame_raise cis_frame_lift cis_frame_bind
  cis_frame_get_cell cis_frame_put_cell cis_frame_alloc_cell cis_frame_get_ci
  cis_frame_mapM cis_frame_foldM cis_frame_Cell_new : cis_frame.

Section CisFrameSheet.
Context {V : Type}.

Lemma cis_frame_expand_row (so : nat * nat) (s : spreadsheet) (k : nat) :
  cis_frame (V := V) (expand_row so s k).
Proof.
  unfold expand_row, Spreadsheet_shape, refresh_step, expand_column_step,
    Spreadsheet_iloc, Spreadsheet__get_item, set_cell_indices, empty_cell.
  eauto 20 with cis_frame.
Qed.

Lemma cis_frame_initialise_array (ci : loc) :
  cis_frame (V := V) (Spreadsheet__initialise_array ci).
Proof. unfold Spreadsheet__initialise_array, Spreadsheet_shape. eauto 10 with cis_frame. Qed.

(** The row loop of [expand_using_cell_indices] keeps the grid's CellIndices. *)
Lemma expand_rows_keep_ci (so : nat * nat) (xs : list nat) :
  forall (s : spreadsheet) (h : heap V) s' h', foldM (expand_row so) s xs h = Ok (s', h') ->
  _cell_indices s' = _cell_indices s.
Proof.
  induction xs as [|x xs IH]; intros s h s' h' E; cbn [foldM] in E.
  - injection E as <- _. reflexivity.
  - unfold bind in E at 1.
    destruct (expand_row so s x h) as [[s1 h1]|] eqn:E1; [|discriminate].
    rewrite (IH _ _ _ _ E). clear E IH.
    assert (Href : forall ys (t : spreadsheet) h t' h',
              foldM (refresh_step (V := V) x) t ys h = Ok (t', h') -> t' = t).
    { induction ys as [|y ys IHy]; intros t h2 t' h3 E; cbn [foldM] in E.
      - injection E as <- _. reflexivity.
      - unfold bind in E at 1.
        destruct (refresh_step x t y h2) as [[t1 h4]|] eqn:Et; [|discriminate].
        rewrite (IHy _ _ _ _ E). unfold refresh_step, bind in Et.
        destruct (Spreadsheet_iloc t x y h2) as [[l h5]|]; [|discriminate].
        destruct (set_cell_indices l (_cell_indices t) h5) as [[u h6]|]; [|discriminate].
        injection Et as <- _. reflexivity. }
    assert (Hcol : forall ys (t : spreadsheet) h t' h',
              foldM (expand_column_step (V := V) x) t ys h = Ok (t', h') ->
              _cell_indices t' = _cell_indices t).
    { induction ys as [|y ys IHy]; intros t h2 t' h3 E; cbn [foldM] in E.
      - injection E as <- _. reflexivity.
      - unfold bind in E at 1.
        destruct (expand_column_step x t y h2) as [[t1 h4]|] eqn:Et; [|discriminate].
        rewrite (IHy _ _ _ _ E). unfold expand_column_step, bind in Et.
        destruct (lift _ h2) as [[r h5]|]; [|discriminate].
        destruct (empty_cell _ h5) as [[c h6]|]; [|discriminate].
        injection Et as <- _. reflexivity. }
    unfold expand_row in E1. unfold bind in E1 at 1.
    destruct (Spreadsheet_shape s h) as [[shape h2]|]; [|discriminate].
    unfold bind in E1 at 1.
    destruct (Nat.leb _ _).
    + unfold bind in E1 at 1.
      destruct (mapM _ _ h2) as [[row h3]|]; [|discriminate].
      cbn [ret] in E1. rewrite (Href _ _ _ _ _ E1). reflexivity.
    + destruct (foldM (expand_column_step x) s _ h2) as [[t h3]|] eqn:Et; [|discriminate].
      rewrite (Href _ _ _ _ _ E1). exact (Hcol _ _ _ _ _ Et).
Qed.

End CisFrameSheet.

Section CopySpec.
Context {V : Type}.

Lemma stores_copy_intro ci (h h' : heap V) r :
  h_cis h !! ci = Some r -> h_cis h' = <[fresh (dom (h_cis h)) := r]> (h_cis h) ->
  stores_copy ci h h' (fresh (dom (h_cis h))).
Proof.
  intros Hr Hh'. pose proof (fresh_ci_not_in h) as Hf.
  assert (Hne : fresh (dom (h_cis h)) <> ci) by (intros E; rewrite E in Hf; congruence).
  exists r. split; [exact Hr|]. split; [exact Hf|]. split; [exact Hne|].
  split; [exact Hh'|]. intros r'. rewrite lookup_insert_ne by congruence.
  rewrite Hh'. apply lookup_insert_eq.
Qed.

Lemma deepcopy_ci_Ok ci (h h' : heap V) ci' :
  deepcopy_ci ci h = Ok (ci', h') ->
  exists r, h_cis h !! ci = Some r /\ ci' = fresh (dom (h_cis h)) /\
    h' = mkHeap (h_cells h) (<[ci' := r]> (h_cis h)).
Proof.
  unfold deepcopy_ci, bind, get_ci, alloc_ci. intros E.
  destruct (h_cis h !! ci) as [r|] eqn:Hr; [|discriminate].
  injection E as <- <-. eauto.
Qed.

Lemma Spreadsheet_shape_Ok (s : spreadsheet) (h h' : heap V) x :
  Spreadsheet_shape s h = Ok (x, h') -> h' = h.
Proof.
  unfold Spreadsheet_shape, bind, get_ci. intros E.
  destruct (h_cis h !! _cell_indices s); [|discriminate]. injection E as _ <-. reflexivity.
Qed.

(** C10.  [Spreadsheet(ci)] and [expand_using_cell_indices(ci)] store a
    deep copy of [ci] as the sheet's CellIndices, never [ci] itself: the
    stored object is new, holds [ci]'s contents, and is unaffected by a
    later change of [ci]. *)
Theorem Spreadsheet_stores_copy_of_cell_indices (h : heap V) (ci : loc) :
  (forall s h', Spreadsheet___init__ ci h = Ok (s, h') ->
     stores_copy ci h h' (_cell_indices s)) /\
  (forall s0 s h', Spreadsheet_expand_using_cell_indices s0 ci h = Ok (s, h') ->
     stores_copy ci h h' (_cell_indices s)).
Proof.
  split.
  - intros s h' E. unfold Spreadsheet___init__ in E. unfold bind in E at 1.
    destruct (deepcopy_ci ci h) as [[ci' h1]|] eqn:Ed; [|discriminate].
    unfold bind in E.
    destruct (Spreadsheet__initialise_array ci' h1) as [[sh h2]|] eqn:Ei; [|discriminate].
    injection E as <- <-. simpl.
    destruct (deepcopy_ci_Ok _ _ _ _ Ed) as (r & Hr & -> & ->).
    apply stores_copy_intro with (1 := Hr).
    rewrite (cis_frame_initialise_array _ _ _ _ Ei). reflexivity.
  - intros s0 s h' E. unfold Spreadsheet_expand_using_cell_indices in E.
    unfold bind in E at 1.
    destruct (Spreadsheet_shape s0 h) as [[so h1]|] eqn:Es; [|discriminate].
    rewrite (Spreadsheet_shape_Ok _ _ _ _ Es) in E. clear Es h1.
    unfold bind in E at 1.
    destruct (deepcopy_ci ci h) as [[ci' h1]|] eqn:Ed; [|discriminate].
    unfold bind in E at 1.
    destruct (Spreadsheet_shape (mkSpreadsheet ci' (_sheet s0)) h1) as [[sh h2]|] eqn:Es;
      [|discriminate].
    rewrite (Spreadsheet_shape_Ok _ _ _ _ Es) in E. clear Es h2.
    rewrite (expand_rows_keep_ci _ _ _ _ _ _ E). simpl.
    destruct (deepcopy_ci_Ok _ _ _ _ Ed) as (r & Hr & -> & ->).
    apply stores_copy_intro with (1 := Hr).
    rewrite (cis_frame_foldM _ _ (cis_frame_expand_row so) _ _ _ _ E). reflexivity.
Qed.

End CopySpec.

(** Witness of C9: [sheet_grid22] expanded by one row and one column. *)
Lemma Spreadsheet_expand_spec_witness :
  exists s' h',
    Spreadsheet_expand sheet_grid22 1 1 ["r2"%string] ["c2"%string] heap_grid22 = Ok (s', h') /\
    Spreadsheet_shape s' h' = Ok ((ci_rows ci22 + 1, ci_cols ci22 + 1)%nat, h') /\
    length (_sheet s') = (ci_rows ci22 + 1)%nat /\
    Forall (fun r => length r = (ci_cols ci22 + 1)%nat) (_sheet s') /\
    (forall i j l c, slot sheet_grid22 i j = Some l -> h_cells heap_grid22 !! l = Some c ->
       slot s' i j = Some l /\
       exists c', h_cells h' !! l = Some c' /\ same_but_ci c c' /\
                  Cell_value c' = Cell_value c) /\
    (forall i j l, slot s' i j = Some l -> slot sheet_grid22 i j = None ->
       h_cells heap_grid22 !! l = None /\
       h_cells h' !! l = Some (value_cell None (_cell_indices s'))) /\
    (forall i j l, slot s' i j = Some l ->
       exists c, h_cells h' !! l = Some c /\ cell_indices c = _cell_indices s') /\
    h_cis heap_grid22 !! _cell_indices s' = None /\
    h_cis h' !! _cell_indices sheet_grid22 = Some ci22.
Proof.
  apply (Spreadsheet_expand_spec sheet_grid22 heap_grid22 ci22 1 1 ["r2"%string] ["c2"%string]);
    vm_compute; repeat constructor; eexists; reflexivity.
Defined.

(** Witness of C10: [Spreadsheet(ci22)], then [expand_using_cell_indices]
    with the same object [ci22]. *)
Lemma Spreadsheet_stores_copy_of_cell_indices_witness :
  exists s h' s' h'',
    Spreadsheet___init__ 0%nat heap0 = Ok (s, h') /\
    Spreadsheet_expand_using_cell_indices s 0%nat h' = Ok (s', h'') /\
    stores_copy 0%nat heap0 h' (_cell_indices s) /\
    stores_copy 0%nat h' h'' (_cell_indices s').
Proof.
  do 4 eexists. split; [vm_compute; reflexivity|]. split; [vm_compute; reflexivity|].
  match goal with
  | |- stores_copy _ _ ?H (_cell_indices ?S) /\ stores_copy _ _ ?H2 (_cell_indices ?S2) =>
      split;
      [ apply (proj1 (Spreadsheet_stores_copy_of_cell_indices heap0 0%nat) S H);
        vm_compute; reflexivity
      | apply (proj2 (Spreadsheet_stores_copy_of_cell_indices H 0%nat) S S2 H2);
        vm_compute; reflexivity ]
  end.
Defined.

(** ** Further properties of the sheet and cell operations *)

Section Structural.
Context {V : Type}.

(** [delete_row] never changes the sheet: with both selectors it raises
    AttributeError, with none it does nothing, with an out-of-range index it
    raises IndexError, and with an index in range it raises TypeError from
    [for col_idx in self.shape[1]]; a label is first turned into an index. *)
Theorem Spreadsheet_delete_row_outcomes (index_of : string -> M V Z) (s : spreadsheet)
  (h : heap V) (ci0 : cellindices) :
  h_cis h !! _cell_indices s = Some ci0 ->
  (forall z lab, Spreadsheet_delete_row index_of s (Some z) (Some lab) h = Err AttributeError) /\
  Spreadsheet_delete_row index_of s None None h = Ok (tt, h) /\
  (forall z, 0 <= z < Z.of_nat (ci_rows ci0) ->
     Spreadsheet_delete_row index_of s (Some z) None h = Err TypeError) /\
  (forall z, ~ (0 <= z < Z.of_nat (ci_rows ci0)) ->
     Spreadsheet_delete_row index_of s (Some z) None h = Err IndexError) /\
  (forall lab z h1, index_of lab h = Ok (z, h1) ->
     Spreadsheet_delete_row index_of s None (Some lab) h =
     Spreadsheet_delete_row index_of s (Some z) None h1).
Proof.
  intros Hci. split; [reflexivity|]. split; [reflexivity|].
  assert (Esh : Spreadsheet_shape s h = Ok ((ci_rows ci0, ci_cols ci0), h)).
  { unfold Spreadsheet_shape, bind, get_ci. rewrite Hci. reflexivity. }
  split; [|split].
  - intros z Hz. unfold Spreadsheet_delete_row. unfold bind at 1. cbn [ret].
    rewrite (bind_Ok _ _ _ _ _ Esh). cbn [fst].
    replace ((0 <=? z) && (z <? Z.of_nat (ci_rows ci0))) with true
      by (symmetry; apply andb_true_intro; split; [apply Z.leb_le|apply Z.ltb_lt]; lia).
    rewrite (bind_Ok _ _ _ _ _ Esh). reflexivity.
  - intros z Hz. unfold Spreadsheet_delete_row. unfold bind at 1. cbn [ret].
    rewrite (bind_Ok _ _ _ _ _ Esh). cbn [fst].
    replace ((0 <=? z) && (z <? Z.of_nat (ci_rows ci0))) with false; [reflexivity|].
    symmetry. destruct (Z.leb_spec 0 z); [|reflexivity]. simpl. apply Z.ltb_ge. lia.
  - intros lab z h1 E. unfold Spreadsheet_delete_row at 1. unfold bind at 1 2.
    rewrite E. reflexivity.
Qed.

(** The row and column insertions change nothing: [insert_row_before] and
    [insert_column_before] raise IndexError when both a reference index and
    a reference label are given and otherwise return without effect;
    [insert_*_after] raise IndexError in the first case, TypeError
    ([None - 1]) without any reference, and otherwise return without effect
    after looking the label up. *)
Theorem Spreadsheet_insert_outcomes (index_of : string -> M V Z) (s : spreadsheet)
  (h : heap V) (label help_text : option string) :
  (forall z lab,
     Spreadsheet_insert_before s label help_text (Some z) (Some lab) h = Err IndexError /\
     Spreadsheet_insert_after index_of s label help_text (Some z) (Some lab) h = Err IndexError) /\
  (forall ri rl, ri = None \/ rl = None ->
     Spreadsheet_insert_before s label help_text ri rl h = Ok (tt, h)) /\
  Spreadsheet_insert_after index_of s label help_text None None h = Err TypeError /\
  (forall z, Spreadsheet_insert_after index_of s label help_text (Some z) None h = Ok (tt, h)) /\
  (forall lab r, index_of lab h = r ->
     Spreadsheet_insert_after index_of s label help_text None (Some lab) h =
     match r with Ok (_, h1) => Ok (tt, h1) | Err e => Err e end).
Proof.
  split; [intros; split; reflexivity|]. split.
  { intros ri rl [-> | ->]; [|destruct ri]; reflexivity. }
  split; [reflexivity|]. split; [reflexivity|].
  intros lab r <-. unfold Spreadsheet_insert_after. unfold bind at 1 2.
  destruct (index_of lab h) as [[z h1]|e]; reflexivity.
Qed.

End Structural.

Lemma py_norm_index_int {A} (l : list A) (z : Z) :
  (- Z.of_nat (length l) <= z < Z.of_nat (length l))%Z ->
  py_norm_index l (PInt z) = Ok (Z.to_nat (z mod Z.of_nat (length l))).
Proof.
  set (n := Z.of_nat (length l)). intros Hz. unfold py_norm_index. fold n.
  destruct (Z.leb_spec 0 z).
  - rewrite Z.mod_small by lia.
    replace (z <? n) with true by (symmetry; apply Z.ltb_lt; lia). reflexivity.
  - replace (z <? n) with true by (symmetry; apply Z.ltb_lt; lia).
    replace (- n <=? z) with true by (symmetry; apply Z.leb_le; lia).
    replace (z <? 0) with true by (symmetry; apply Z.ltb_lt; lia). simpl.
    f_equal. f_equal.
    rewrite <- (Z.mod_small (n + z) n) by lia.
    rewrite Z.add_comm, <- Zplus_mod_idemp_r, Z_mod_same_full, Z.add_0_r. reflexivity.
Qed.

Lemma py_getitem_int_ok {A} (l : list A) (z : Z) :
  (- Z.of_nat (length l) <= z < Z.of_nat (length l))%Z ->
  exists x, l !! Z.to_nat (z mod Z.of_nat (length l)) = Some x /\
            py_getitem l (PInt z) = Ok x.
Proof.
  intros Hz. unfold py_getitem. rewrite py_norm_index_int by exact Hz.
  destruct (lookup_lt_is_Some_2 l (Z.to_nat (z mod Z.of_nat (length l)))) as [x Hx].
  { assert (0 <= z mod Z.of_nat (length l) < Z.of_nat (length l))%Z
      by (apply Z.mod_pos_bound; lia). lia. }
  rewrite Hx. eauto.
Qed.

Section SetItemMore.
Context {V : Type}.

(** [_set_item] indexes the nested lists with the coordinates as given, so
    a float coordinate, even an integral one such as [1.0], raises
    TypeError (a list index must be an int), whereas [_get_item] converts
    with [int()] first. *)
Theorem Spreadsheet__set_item_float_TypeError (s : spreadsheet) (h : heap V) (v : V) (q : Q) :
  not_integral (PFloat q) = false ->
  (forall y, not_integral y = false ->
     Spreadsheet__set_item s (CVNumber v) (PFloat q) y h = Err TypeError) /\
  (forall z, (- Z.of_nat (length (_sheet s)) <= z < Z.of_nat (length (_sheet s)))%Z ->
     Spreadsheet__set_item s (CVNumber v) (PInt z) (PFloat q) h = Err TypeError).
Proof.
  intros Hq. split.
  - intros y Hy. unfold Spreadsheet__set_item. rewrite Hq, Hy. cbn [orb].
    unfold bind at 1. unfold Cell_new. unfold alloc_cell at 1. reflexivity.
  - intros z Hz. unfold Spreadsheet__set_item. rewrite Hq, not_integral_int. cbn [orb].
    unfold bind at 1. unfold Cell_new at 1. unfold alloc_cell at 1.
    destruct (py_getitem_int_ok (_sheet s) z Hz) as (r & _ & Er).
    unfold bind, lift. rewrite py_norm_index_int by exact Hz. rewrite Er. reflexivity.
Qed.

(** Setting a number at integer coordinates [(x, y)] inside
    [[-R, R) x [-C, C)] stores a fresh Value cell anchored at the
    coordinates as given in the slot [(x mod R, y mod C)], and [_get_item]
    at [(x, y)] reads it back.  For a negative coordinate the anchor
    ([row = x < 0]) differs from the slot the cell occupies. *)
Theorem Spreadsheet__set_item_number_int (s : spreadsheet) (h : heap V) (R C : nat) (v : V)
  (x y : Z) :
  length (_sheet s) = R -> Forall (fun r => length r = C) (_sheet s) ->
  (- Z.of_nat R <= x < Z.of_nat R)%Z -> (- Z.of_nat C <= y < Z.of_nat C)%Z ->
  exists s' h' l,
    Spreadsheet__set_item s (CVNumber v) (PInt x) (PInt y) h = Ok (s', h') /\
    slot s' (Z.to_nat (x mod Z.of_nat R)) (Z.to_nat (y mod Z.of_nat C)) = Some l /\
    h_cells h !! l = None /\
    h_cells h' !! l = Some (mkCell (Some (PInt x)) (Some (PInt y)) (Some v) value_only
                                  (_cell_indices s) (FConst (Some v))) /\
    Spreadsheet__get_item s' (PInt x) (PInt y) h' = Ok (l, h').
Proof.
  intros HR HC Hx Hy.
  set (l := fresh (dom (h_cells h))).
  set (c := mkCell (Some (PInt x)) (Some (PInt y)) (Some v) value_only (_cell_indices s)
                   (FConst (Some v))).
  set (h' := mkHeap (<[l := c]> (h_cells h)) (h_cis h)).
  rewrite <- HR in Hx.
  destruct (py_getitem_int_ok (_sheet s) x Hx) as (r & Hr & Er).
  assert (Hlr : length r = C) by exact (proj1 (Forall_lookup _ _) HC _ _ Hr).
  rewrite <- Hlr in Hy.
  set (i := Z.to_nat (x mod Z.of_nat (length (_sheet s)))) in *.
  set (k := Z.to_nat (y mod Z.of_nat (length r))).
  assert (Hk : (k < length r)%nat).
  { assert (0 <= y mod Z.of_nat (length r) < Z.of_nat (length r))%Z
      by (apply Z.mod_pos_bound; lia). subst k. lia. }
  assert (Hi : (i < length (_sheet s))%nat) by (apply lookup_lt_is_Some; eauto).
  set (s' := mkSpreadsheet (_cell_indices s) (<[i := <[k := l]> r]> (_sheet s))).
  exists s', h', l.
  split.
  { unfold Spreadsheet__set_item. rewrite !not_integral_int. cbn [orb].
    unfold bind at 1. unfold Cell_new at 1. unfold alloc_cell at 1. fold l.
    unfold bind, lift. rewrite py_norm_index_int by exact Hx. fold i. rewrite Er.
    unfold py_setitem. rewrite py_norm_index_int by exact Hy. reflexivity. }
  assert (Hs'i : _sheet s' !! i = Some (<[k := l]> r)) by (simpl; apply list_lookup_insert_eq; exact Hi).
  split.
  { rewrite <- HR, <- Hlr. fold i k. unfold slot. rewrite Hs'i. simpl.
    apply list_lookup_insert_eq. exact Hk. }
  split; [apply fresh_cell_not_in|].
  split; [simpl; apply lookup_insert_eq|].
  unfold Spreadsheet__get_item. rewrite !not_integral_int. cbn [orb py_int].
  unfold bind, lift.
  assert (Hlen' : length (_sheet s') = length (_sheet s)) by (simpl; apply length_insert).
  rewrite <- Hlen' in Hx.
  destruct (py_getitem_int_ok (_sheet s') x Hx) as (r' & Hr' & Er').
  rewrite Hlen' in Hr'. fold i in Hr'. rewrite Hs'i in Hr'. injection Hr' as <-.
  rewrite Er'. rewrite <- (length_insert r k l) in Hy.
  destruct (py_getitem_int_ok (<[k := l]> r) y Hy) as (l' & Hl' & El').
  rewrite length_insert in Hl'. fold k in Hl'. rewrite list_lookup_insert_eq in Hl' by exact Hk.
  injection Hl' as <-. rewrite El'. reflexivity.
Qed.

End SetItemMore.

Section GetSlice.
Context {V : Type}.

Lemma get_item_slot (s : spreadsheet) (h : heap V) (x y : Z) (l : loc) :
  (0 <= x)%Z -> (0 <= y)%Z -> slot s (Z.to_nat x) (Z.to_nat y) = Some l ->
  Spreadsheet__get_item s (PInt x) (PInt y) h = Ok (l, h).
Proof.
  intros Hx Hy Hs. unfold slot in Hs.
  destruct (_sheet s !! Z.to_nat x) as [r|] eqn:Hr; simpl in Hs; [|discriminate].
  assert (Hxl : (Z.to_nat x < length (_sheet s))%nat) by (apply lookup_lt_is_Some; eauto).
  assert (Hyl : (Z.to_nat y < length r)%nat) by (apply lookup_lt_is_Some; eauto).
  unfold Spreadsheet__get_item. rewrite !not_integral_int. cbn [orb py_int].
  unfold bind, lift, py_getitem, py_norm_index.
  replace ((0 <=? x) && (x <? Z.of_nat (length (_sheet s)))) with true
    by (symmetry; apply andb_true_iff; split; [apply Z.leb_le|apply Z.ltb_lt]; lia).
  rewrite Hr.
  replace ((0 <=? y) && (y <? Z.of_nat (length r))) with true
    by (symmetry; apply andb_true_iff; split; [apply Z.leb_le|apply Z.ltb_lt]; lia).
  rewrite Hs. reflexivity.
Qed.

Lemma get_slice_inner (s : spreadsheet) (x : Z) (ys : list Z) :
  (0 <= x)%Z -> Forall (fun y => 0 <= y)%Z ys ->
  (forall y, In y ys -> is_Some (slot s (Z.to_nat x) (Z.to_nat y))) ->
  forall (acc : list loc) (h : heap V), exists ls,
    foldM (fun acc y => do l <- Spreadsheet_iloc_at s x y ; ret (acc ++ [l])) acc ys h
      = Ok (acc ++ ls, h) /\
    Forall2 (fun y l => slot s (Z.to_nat x) (Z.to_nat y) = Some l) ys ls.
Proof.
  intros Hx. induction ys as [|y ys IH]; intros Hys Hin acc h.
  - exists []. rewrite app_nil_r. split; [reflexivity|constructor].
  - inversion Hys as [|? ? Hy Hys']; subst.
    destruct (Hin y (or_introl eq_refl)) as [l Hl].
    destruct (IH Hys' (fun y' Hy' => Hin y' (or_intror Hy')) (acc ++ [l]) h) as (ls & E & F).
    exists (l :: ls). split; [|constructor; assumption].
    simpl. erewrite bind_Ok; [rewrite E, <- app_assoc; reflexivity|].
    erewrite bind_Ok; [reflexivity|]. unfold Spreadsheet_iloc_at.
    apply get_item_slot; assumption.
Qed.

Lemma get_slice_outer (s : spreadsheet) (xs ys : list Z) (ystart yend ystep : Z) :
  py_range ystart yend ystep = Ok ys ->
  Forall (fun x => 0 <= x)%Z xs -> Forall (fun y => 0 <= y)%Z ys ->
  (forall x y, In x xs -> In y ys -> is_Some (slot s (Z.to_nat x) (Z.to_nat y))) ->
  forall (acc : list loc) (h : heap V), exists ls,
    foldM (fun acc x =>
             do ys <- lift (py_range ystart yend ystep) ;
             foldM (fun acc y => do l <- Spreadsheet_iloc_at s x y ; ret (acc ++ [l]))
                   acc ys) acc xs h = Ok (acc ++ ls, h) /\
    Forall2 (fun p l => slot s (Z.to_nat p.1) (Z.to_nat p.2) = Some l) (list_prod xs ys) ls.
Proof.
  intros Hr. induction xs as [|x xs IH]; intros Hxs Hys Hin acc h.
  - exists []. rewrite app_nil_r. split; [reflexivity|constructor].
  - inversion Hxs as [|? ? Hx Hxs']; subst.
    destruct (get_slice_inner s x ys Hx Hys (fun y Hy => Hin x y (or_introl eq_refl) Hy) acc h)
      as (ls1 & E1 & F1).
    destruct (IH Hxs' Hys (fun x' y Hx' Hy => Hin x' y (or_intror Hx') Hy) (acc ++ ls1) h)
      as (ls2 & E2 & F2).
    exists (ls1 ++ ls2). split.
    + simpl. erewrite bind_Ok; [rewrite E2, app_assoc; reflexivity|].
      erewrite bind_Ok; [exact E1|]. unfold lift. rewrite Hr. reflexivity.
    + simpl. apply Forall2_app; [|exact F2].
      clear - F1. induction F1; simpl; constructor; auto.
Qed.

(** [_get_slice] on in-range, non-negative ranges: it succeeds without
    touching the heap and returns a [CellSlice] with start
    [(x_start, y_start)], end [(x_end - 1, y_end - 1)], the sheet itself,
    and the objects of the slots of the row-major product of the two
    ranges, in that order. *)
Theorem Spreadsheet__get_slice_cells (s : spreadsheet) (h : heap V)
  (xs0 xe xst ys0 ye yst : Z) (xl yl : list Z) :
  py_range xs0 xe xst = Ok xl -> py_range ys0 ye yst = Ok yl ->
  Forall (fun x => 0 <= x)%Z xl -> Forall (fun y => 0 <= y)%Z yl ->
  (forall x y, In x xl -> In y yl -> is_Some (slot s (Z.to_nat x) (Z.to_nat y))) ->
  exists cells,
    Spreadsheet__get_slice s xs0 xe xst ys0 ye yst h
      = Ok (mkCellSlice (xs0, ys0) (xe - 1, ye - 1) cells s, h) /\
    Forall2 (fun p l => slot s (Z.to_nat p.1) (Z.to_nat p.2) = Some l) (list_prod xl yl) cells.
Proof.
  intros Hx Hy Hxl Hyl Hin.
  destruct (get_slice_outer s xl yl ys0 ye yst Hy Hxl Hyl Hin [] h) as (cells & E & F).
  exists cells. split; [|exact F].
  unfold Spreadsheet__get_slice, bind at 1, lift at 1. rewrite Hx.
  unfold bind at 1. rewrite E. reflexivity.
Qed.

(** The steps of [_get_slice]: a zero row step raises [ValueError]; an
    empty row range yields an empty slice without ever evaluating the
    column range (so even a zero column step passes); a zero column step
    with a non-empty row range raises [ValueError]. *)
Theorem Spreadsheet__get_slice_steps (s : spreadsheet) (h : heap V)
  (xs0 xe xst ys0 ye yst : Z) :
  (xst = 0 -> Spreadsheet__get_slice s xs0 xe xst ys0 ye yst h = Err ValueError) /\
  (py_range xs0 xe xst = Ok [] ->
     Spreadsheet__get_slice s xs0 xe xst ys0 ye yst h
       = Ok (mkCellSlice (xs0, ys0) (xe - 1, ye - 1) [] s, h)) /\
  (forall x xl, py_range xs0 xe xst = Ok (x :: xl) -> yst = 0 ->
     Spreadsheet__get_slice s xs0 xe xst ys0 ye yst h = Err ValueError).
Proof.
  split; [|split].
  - intros ->. reflexivity.
  - intros E. unfold Spreadsheet__get_slice, bind at 1, lift at 1. rewrite E. reflexivity.
  - intros x xl E ->. unfold Spreadsheet__get_slice, bind at 1, lift at 1. rewrite E.
    reflexivity.
Qed.

End GetSlice.

Section InitGrid.
Context {V : Type}.
Implicit Types (h : heap V).

Lemma mapM_alloc {A} (g : A -> M V loc) (f : A -> cell V) (xs : list A) h :
  (forall x h, g x h = alloc_cell (f x) h) ->
  exists ls h', mapM g xs h = Ok (ls, h') /\
    Forall2 (fun x l => h_cells h !! l = None /\ h_cells h' !! l = Some (f x)) xs ls /\
    (forall l c, h_cells h !! l = Some c -> h_cells h' !! l = Some c) /\
    h_cis h' = h_cis h.
Proof.
  intros Hg. revert h. induction xs as [|x xs IH]; intros h.
  - exists [], h. split; [reflexivity|]. split; [constructor|]. split; auto.
  - set (l := fresh (dom (h_cells h))).
    set (h1 := mkHeap (<[l := f x]> (h_cells h)) (h_cis h)).
    assert (Hl : h_cells h !! l = None) by apply fresh_cell_not_in.
    assert (Hext1 : forall l' c, h_cells h !! l' = Some c -> h_cells h1 !! l' = Some c).
    { intros l' c E. simpl. rewrite lookup_insert_ne; [exact E|].
      intros ->. congruence. }
    destruct (IH h1) as (ls & h' & E & F & Hext & Hci).
    exists (l :: ls), h'. split.
    { simpl. erewrite bind_Ok; [|rewrite Hg; reflexivity]. fold l h1.
      erewrite bind_Ok; [reflexivity|exact E]. }
    split; [|split].
    + constructor.
      * split; [exact Hl|]. apply Hext. simpl. apply lookup_insert_eq.
      * eapply Forall2_impl; [exact F|]. intros y l' [Hn Hs]. split; [|exact Hs].
        destruct (h_cells h !! l') eqn:E'; [|reflexivity].
        rewrite (Hext1 _ _ E') in Hn. discriminate.
    + intros l' c E'. apply Hext, Hext1, E'.
    + rewrite Hci. reflexivity.
Qed.

Lemma init_rows (ci : loc) (rows : list nat) (cols : nat) h :
  exists sheet h',
    mapM (fun row_idx =>
            mapM (fun col_idx =>
                    Cell_new (Some (PInt (Z.of_nat row_idx))) (Some (PInt (Z.of_nat col_idx)))
                             None ci value_only None)
                 (seq 0 cols)) rows h = Ok (sheet, h') /\
    Forall2 (fun i row => Forall2 (fun j l =>
        h_cells h !! l = None /\
        h_cells h' !! l = Some (mkCell (Some (PInt (Z.of_nat i))) (Some (PInt (Z.of_nat j)))
                                       None value_only ci
                                       (FRef (Some (PInt (Z.of_nat i))) (Some (PInt (Z.of_nat j))))))
        (seq 0 cols) row) rows sheet /\
    (forall l c, h_cells h !! l = Some c -> h_cells h' !! l = Some c) /\
    h_cis h' = h_cis h.
Proof.
  revert h. induction rows as [|i rows IH]; intros h.
  - exists [], h. split; [reflexivity|]. split; [constructor|]. split; auto.
  - destruct (mapM_alloc (fun col_idx => Cell_new (Some (PInt (Z.of_nat i)))
                (Some (PInt (Z.of_nat col_idx))) None ci value_only None)
               (fun j => @mkCell V (Some (PInt (Z.of_nat i))) (Some (PInt (Z.of_nat j)))
                                None value_only ci
                                (FRef (Some (PInt (Z.of_nat i))) (Some (PInt (Z.of_nat j)))))
               (seq 0 cols) h (fun _ _ => eq_refl))
      as (row & h1 & E1 & F1 & Hext1 & Hci1).
    destruct (IH h1) as (sheet & h' & E & F & Hext & Hci).
    exists (row :: sheet), h'. split.
    { simpl. erewrite bind_Ok; [|exact E1]. erewrite bind_Ok; [reflexivity|exact E]. }
    split; [|split].
    + constructor.
      * eapply Forall2_impl; [exact F1|]. intros j l [Hn Hs]. split; [exact Hn|].
        apply Hext, Hs.
      * eapply Forall2_impl; [exact F|]. intros j r Hr.
        eapply Forall2_impl; [exact Hr|]. intros k l [Hn Hs]. split; [|exact Hs].
        destruct (h_cells h !! l) eqn:E'; [|reflexivity].
        rewrite (Hext1 _ _ E') in Hn. discriminate.
    + intros l c E'. apply Hext, Hext1, E'.
    + rewrite Hci, Hci1. reflexivity.
Qed.

(** [Spreadsheet(cell_indices)] builds a [rows x columns] grid (the shape
    of the CellIndices given) whose slot [(i, j)] holds a fresh cell,
    anchored at [(i, j)], without a value, of type Value, whose words are
    the reference to [(i, j)] and whose [cell_indices] is the sheet's own
    copy; no two slots share a cell and no existing cell is changed. *)
Theorem Spreadsheet___init___grid (ci : loc) (r : cellindices) h :
  h_cis h !! ci = Some r ->
  exists s h',
    Spreadsheet___init__ ci h = Ok (s, h') /\
    h_cis h' !! _cell_indices s = Some r /\
    length (_sheet s) = ci_rows r /\
    Forall (fun row => length row = ci_cols r) (_sheet s) /\
    (forall i j, (i < ci_rows r)%nat -> (j < ci_cols r)%nat -> exists l,
        slot s i j = Some l /\ h_cells h !! l = None /\
        h_cells h' !! l = Some (mkCell (Some (PInt (Z.of_nat i))) (Some (PInt (Z.of_nat j)))
                                       None value_only (_cell_indices s)
                                       (FRef (Some (PInt (Z.of_nat i))) (Some (PInt (Z.of_nat j)))))) /\
    (forall i j i' j' l, slot s i j = Some l -> slot s i' j' = Some l -> i = i' /\ j = j') /\
    (forall l c, h_cells h !! l = Some c -> h_cells h' !! l = Some c).
Proof.
  intros Hci.
  set (ci' := fresh (dom (h_cis h))).
  set (h0 := mkHeap (h_cells h) (<[ci' := r]> (h_cis h))).
  destruct (init_rows ci' (seq 0 (ci_rows r)) (ci_cols r) h0)
    as (sheet & h' & E & F & Hext & Hcis).
  exists (mkSpreadsheet ci' sheet), h'.
  assert (Hrows : length sheet = ci_rows r) by (rewrite <- (Forall2_length _ _ _ F); apply length_seq).
  assert (Hslot : forall i j, (i < ci_rows r)%nat -> (j < ci_cols r)%nat -> exists l,
        slot (mkSpreadsheet ci' sheet) i j = Some l /\ h_cells h !! l = None /\
        h_cells h' !! l = Some (mkCell (Some (PInt (Z.of_nat i))) (Some (PInt (Z.of_nat j)))
                                       None value_only ci'
                                       (FRef (Some (PInt (Z.of_nat i))) (Some (PInt (Z.of_nat j)))))).
  { intros i j Hi Hj.
    destruct (Forall2_lookup_l _ _ _ i i F) as (row & Hrow & Fr); [apply lookup_seq_lt, Hi|].
    destruct (Forall2_lookup_l _ _ _ j j Fr) as (l & Hl & Hn & Hs); [apply lookup_seq_lt, Hj|].
    exists l. unfold slot. simpl. rewrite Hrow. simpl. auto. }
  split.
  { unfold Spreadsheet___init__, deepcopy_ci.
    erewrite bind_Ok; [|erewrite bind_Ok; [reflexivity|unfold get_ci; rewrite Hci; reflexivity]].
    fold ci' h0. erewrite bind_Ok; [reflexivity|].
    unfold Spreadsheet__initialise_array, Spreadsheet_shape.
    rewrite (bind_Ok _ _ _ (ci_rows r, ci_cols r) h0); [exact E|].
    erewrite bind_Ok; [reflexivity|]. unfold get_ci. simpl. rewrite lookup_insert_eq. reflexivity. }
  split; [simpl; rewrite Hcis; simpl; apply lookup_insert_eq|].
  split; [exact Hrows|].
  split.
  { apply Forall_lookup. intros i row Hrow.
    assert (Hi : (i < ci_rows r)%nat) by (rewrite <- Hrows; apply lookup_lt_is_Some; eauto).
    destruct (Forall2_lookup_l _ _ _ i i F) as (row' & Hrow' & Fr); [apply lookup_seq_lt, Hi|].
    simpl in Hrow. rewrite Hrow in Hrow'. injection Hrow' as <-.
    rewrite <- (Forall2_length _ _ _ Fr). apply length_seq. }
  split; [exact Hslot|].
  split.
  { intros i j i' j' l Hs1 Hs2.
    assert (Hb : forall i j, slot (mkSpreadsheet ci' sheet) i j = Some l ->
               (i < ci_rows r)%nat /\ (j < ci_cols r)%nat).
    { intros a b Hs. unfold slot in Hs. simpl in Hs.
      destruct (sheet !! a) as [row|] eqn:Ha; simpl in Hs; [|discriminate].
      split; [rewrite <- Hrows; apply lookup_lt_is_Some; eauto|].
      destruct (Forall2_lookup_r _ _ _ a row F Ha) as (a' & Ha' & Fr).
      assert (length row = ci_cols r) as <- by (rewrite <- (Forall2_length _ _ _ Fr); apply length_seq).
      apply lookup_lt_is_Some; eauto. }
    destruct (Hb _ _ Hs1) as [Hi Hj]. destruct (Hb _ _ Hs2) as [Hi' Hj'].
    destruct (Hslot i j Hi Hj) as (l1 & E1 & _ & C1).
    destruct (Hslot i' j' Hi' Hj') as (l2 & E2 & _ & C2).
    rewrite Hs1 in E1. injection E1 as <-. rewrite Hs2 in E2. injection E2 as <-.
    rewrite C1 in C2. injection C2. intros. split; lia. }
  intros l c E'. apply Hext. exact E'.
Qed.

End InitGrid.

Ltac close_alloc :=
  split; [apply fresh_cell_not_in|];
  split; [simpl; rewrite lookup_insert_eq; eauto|];
  split; intros l' c' H'; simpl;
  repeat (rewrite lookup_insert_ne;
          [|intros E'; subst l';
            first [rewrite fresh_cell_not_in in H' | rewrite fresh_ci_not_in in H'];
            discriminate]);
  exact H'.

Section SetItemFrame.
Context {V : Type}.
Implicit Types (h : heap V).

Lemma set_item_store (s : spreadsheet) (x y : pynum) (l : loc) h1 s' h' :
  (do i <- lift (py_norm_index (_sheet s) x) ;
   do r <- lift (py_getitem (_sheet s) x) ;
   do r' <- lift (py_setitem r y l) ;
   ret (mkSpreadsheet (_cell_indices s) (<[i := r']> (_sheet s)))) h1 = Ok (s', h') ->
  h' = h1 /\ _cell_indices s' = _cell_indices s /\
  exists i r j, _sheet s !! i = Some r /\ (j < length r)%nat /\
                _sheet s' = <[i := <[j := l]> r]> (_sheet s).
Proof.
  unfold bind, lift, ret, py_getitem, py_setitem.
  destruct (py_norm_index (_sheet s) x) as [i|] eqn:Ei; [|discriminate].
  destruct (_sheet s !! i) as [r|] eqn:Er; [|discriminate].
  destruct (py_norm_index r y) as [j|] eqn:Ej; [|discriminate].
  intros E. injection E as <- <-. split; [reflexivity|]. split; [reflexivity|].
  exists i, r, j. split; [exact Er|]. split; [|reflexivity].
  unfold py_norm_index in Ej. destruct y as [z|]; [|discriminate].
  destruct ((0 <=? z) && (z <? Z.of_nat (length r))) eqn:C1.
  - injection Ej as <-. apply andb_true_iff in C1 as [C0 C1]. apply Z.leb_le in C0. apply Z.ltb_lt in C1. lia.
  - destruct ((- Z.of_nat (length r) <=? z) && (z <? 0)) eqn:C2; [|discriminate].
    injection Ej as <-. apply andb_true_iff in C2 as [C2 C3].
    apply Z.leb_le in C2. apply Z.ltb_lt in C3. lia.
Qed.

(** What [_set_item] never does: when it succeeds, it replaces exactly one
    slot of one row, by a freshly created object, keeps the sheet's
    [cell_indices], and changes no existing cell or CellIndices object
    (in particular, the Cell passed as [value] is left as it was). *)
Theorem Spreadsheet__set_item_frame (s : spreadsheet) (value : cellval V) (x y : pynum)
  h s' h' :
  Spreadsheet__set_item s value x y h = Ok (s', h') ->
  _cell_indices s' = _cell_indices s /\
  (exists i r j l, _sheet s !! i = Some r /\ (j < length r)%nat /\
     _sheet s' = <[i := <[j := l]> r]> (_sheet s) /\
     h_cells h !! l = None /\ is_Some (h_cells h' !! l)) /\
  (forall l c, h_cells h !! l = Some c -> h_cells h' !! l = Some c) /\
  (forall l c, h_cis h !! l = Some c -> h_cis h' !! l = Some c).
Proof.
  intros E. unfold Spreadsheet__set_item in E.
  destruct (not_integral x || not_integral y); [discriminate|].
  unfold bind at 1 in E.
  match type of E with context [match ?m h with _ => _ end] =>
    destruct (m h) as [[l h1]|] eqn:Ev; [|discriminate] end.
  assert (Hv : h_cells h !! l = None /\ is_Some (h_cells h1 !! l) /\
               (forall l' c, h_cells h !! l' = Some c -> h_cells h1 !! l' = Some c) /\
               (forall l' c, h_cis h !! l' = Some c -> h_cis h1 !! l' = Some c)).
  { destruct value as [v|lv].
    - cbv [Cell_new alloc_cell] in Ev. injection Ev as <- <-. close_alloc.
    - cbv [bind get_cell] in Ev. destruct (h_cells h !! lv) as [c|] eqn:Hc; [|discriminate].
      destruct (Cell_anchored c) eqn:Ha.
      + unfold Cell_reference in Ev. cbv [bind get_cell Cell_new alloc_cell raise] in Ev.
        rewrite Hc, Ha in Ev. simpl in Ev. injection Ev as <- <-. close_alloc.
      + cbv [deepcopy_cell deepcopy_ci get_ci alloc_ci alloc_cell put_cell ret bind get_cell] in Ev.
        rewrite Hc in Ev. destruct (h_cis h !! cell_indices c) eqn:Hci; [|discriminate].
        simpl in Ev. rewrite lookup_insert_eq in Ev. injection Ev as <- <-. close_alloc. }
  destruct (set_item_store s x y l h1 s' h' E) as (-> & Hci & i & r & j & Hr & Hj & Hs').
  destruct Hv as (Hn & Hl & Hc & Hcis).
  split; [exact Hci|]. split; [exists i, r, j, l; repeat split; auto|]. split; auto.
Qed.

End SetItemFrame.

Section Brackets.
Context {V : Type} `{NpUfunc V}.
Implicit Types (h : heap V).

(** [Cell.brackets] never inspects the value: on any live cell, with or
    without a value, it allocates a new Free, Computational cell carrying
    the operand's value, CellIndices and its word in brackets, and changes
    nothing else; [Cell.logarithm] on the same valueless cell raises
    TypeError ([np.log(None)]) and allocates nothing. *)
Theorem Cell_brackets_spec h (l : loc) (b : cell V) :
  h_cells h !! l = Some b ->
  Cell_brackets l h =
    Ok (fresh (dom (h_cells h)),
        mkHeap (<[fresh (dom (h_cells h)) :=
                   mkCell None None (_value b) computational (cell_indices b)
                          (FBrackets (Cell_word b))]> (h_cells h)) (h_cis h)) /\
  h_cells h !! fresh (dom (h_cells h)) = None /\
  (_value b = None -> Cell_logarithm l h = Err TypeError).
Proof.
  intros Hb. split; [|split; [apply fresh_cell_not_in|]].
  - unfold Cell_brackets. erewrite bind_Ok; [|unfold get_cell; rewrite Hb; reflexivity].
    apply Cell_new_ok. tauto.
  - intros Hv. unfold Cell_logarithm. erewrite bind_Ok; [|unfold get_cell; rewrite Hb; reflexivity].
    unfold bind, lift, np_unary, Cell_value. rewrite Hv. reflexivity.
Qed.

End Brackets.

Section ExpandKeepsRows.
Context {V : Type}.
Implicit Types (h : heap V).

(** [expand_using_cell_indices] never removes a row: the grid ends with
    [max(R0, R1)] rows for an old height [R0] and a new height [R1], and the
    rows from [R1] on are left exactly as they were, while [shape] reports
    the new CellIndices' [(R1, C1)].  So with fewer rows in the new
    CellIndices the grid keeps rows that [shape] no longer counts. *)
Theorem Spreadsheet_expand_using_cell_indices_keeps_rows (s : spreadsheet) h (ci : loc)
  (ci0 cir : cellindices) :
  h_cis h !! _cell_indices s = Some ci0 -> h_cis h !! ci = Some cir ->
  length (_sheet s) = ci_rows ci0 -> Forall (fun r => length r = ci_cols ci0) (_sheet s) ->
  Forall (Forall (fun l => is_Some (h_cells h !! l))) (_sheet s) ->
  (ci_cols ci0 <= ci_cols cir)%nat ->
  exists s' h',
    Spreadsheet_expand_using_cell_indices s ci h = Ok (s', h') /\
    Spreadsheet_shape s' h' = Ok ((ci_rows cir, ci_cols cir), h') /\
    length (_sheet s') = Nat.max (ci_rows ci0) (ci_rows cir) /\
    (forall i, (ci_rows cir <= i)%nat -> _sheet s' !! i = _sheet s !! i).
Proof.
  intros Hci0 Hcir HR HC Hlive HC01.
  destruct (Spreadsheet_expand_using_cell_indices_inv s h ci ci0 cir Hci0 Hcir HR HC Hlive HC01)
    as (s' & h' & E & Hc & Hev & Hlen & Hhi & _).
  exists s', h'. split; [exact E|]. split.
  { unfold Spreadsheet_shape, bind, get_ci. rewrite Hc.
    destruct Hev as (-> & _). simpl. rewrite lookup_insert_eq. reflexivity. }
  split; [exact Hlen|exact Hhi].
Qed.

End ExpandKeepsRows.

Section DeleteSingleCell.
Context {V : Type}.
Implicit Types (h : heap V).

Lemma bind_Err {A B} (m : M V A) (k : A -> M V B) h (e : pyerr) :
  m h = Err e -> bind m k h = Err e.
Proof. intros E. unfold bind. rewrite E. reflexivity. Qed.

Lemma update_after_cell_delete_live (l : loc) (r c : Z) h :
  is_Some (h_cells h !! l) -> Cell_update_after_cell_delete l r c h = Err AttributeError.
Proof.
  intros [x Hx]. unfold Cell_update_after_cell_delete.
  erewrite bind_Ok; [reflexivity|]. unfold get_cell. rewrite Hx. reflexivity.
Qed.

Lemma iloc_at_live (s : spreadsheet) h (R C a b : nat) :
  length (_sheet s) = R -> Forall (fun r => length r = C) (_sheet s) ->
  Forall (Forall (fun l => is_Some (h_cells h !! l))) (_sheet s) ->
  (a < R)%nat -> (b < C)%nat ->
  exists l, Spreadsheet_iloc_at s (Z.of_nat a) (Z.of_nat b) h = Ok (l, h) /\
            is_Some (h_cells h !! l).
Proof.
  intros HR HC Hl Ha Hb.
  destruct (lookup_lt_is_Some_2 (_sheet s) a ltac:(lia)) as [r Hr].
  assert (Hlr : length r = C) by exact (proj1 (Forall_lookup _ _) HC _ _ Hr).
  destruct (lookup_lt_is_Some_2 r b ltac:(lia)) as [l Hlb].
  exists l. split.
  - apply get_item_slot; [lia|lia|]. rewrite !Nat2Z.id. unfold slot. rewrite Hr. exact Hlb.
  - exact (proj1 (Forall_lookup _ _) (proj1 (Forall_lookup _ _) Hl _ _ Hr) _ _ Hlb).
Qed.

(** [_delete_single_cell] at an in-range position of a well-formed sheet:
    it first overwrites the position with a new Cell anchored there, which
    [_set_item] turns into a free reference cell to that very position;
    then, for the first other cell of the grid, it calls
    [update_after_cell_delete], a method [Cell] does not have, so on any
    sheet with at least two cells it raises AttributeError.  On a [1 x 1]
    sheet no other cell exists and it succeeds, leaving in the only slot a
    free Computational cell without a value whose words refer to [(0, 0)]. *)
Theorem Spreadsheet__delete_single_cell_outcomes (s : spreadsheet) h (cir : cellindices)
  (pr pc : Z) :
  h_cis h !! _cell_indices s = Some cir ->
  length (_sheet s) = ci_rows cir -> Forall (fun r => length r = ci_cols cir) (_sheet s) ->
  Forall (Forall (fun l => is_Some (h_cells h !! l))) (_sheet s) ->
  (0 <= pr < Z.of_nat (ci_rows cir))%Z -> (0 <= pc < Z.of_nat (ci_cols cir))%Z ->
  ((2 <= ci_rows cir * ci_cols cir)%nat ->
     Spreadsheet__delete_single_cell s pr pc h = Err AttributeError) /\
  (ci_rows cir = 1%nat -> ci_cols cir = 1%nat ->
     exists s' h' l, Spreadsheet__delete_single_cell s pr pc h = Ok (s', h') /\
       slot s' 0 0 = Some l /\ h_cells h !! l = None /\
       h_cells h' !! l = Some (mkCell None None None computational (_cell_indices s)
                                      (FRef (Some (PInt 0)) (Some (PInt 0))))).
Proof.
  intros Hci HR HC Hlive Hpr Hpc.
  set (R := ci_rows cir) in *. set (C := ci_cols cir) in *.
  set (ci := _cell_indices s).
  set (cA := mkCell (Some (PInt pr)) (Some (PInt pc)) None value_only ci
                    (FRef (V := V) (Some (PInt pr)) (Some (PInt pc)))).
  set (lc := fresh (dom (h_cells h))).
  set (hc := mkHeap (<[lc := cA]> (h_cells h)) (h_cis h)).
  set (cB := mkCell None None None computational ci (FRef (V := V) (Some (PInt pr)) (Some (PInt pc)))).
  set (lr := fresh (dom (h_cells hc))).
  set (h1 := mkHeap (<[lr := cB]> (h_cells hc)) (h_cis hc)).
  destruct (lookup_lt_is_Some_2 (_sheet s) (Z.to_nat pr) ltac:(lia)) as [r Hr].
  assert (Hlr : length r = C) by exact (proj1 (Forall_lookup _ _) HC _ _ Hr).
  set (s1 := mkSpreadsheet ci (<[Z.to_nat pr := <[Z.to_nat pc := lr]> r]> (_sheet s))).
  assert (Hlc : h_cells h !! lc = None) by apply fresh_cell_not_in.
  assert (Hlrn : h_cells hc !! lr = None) by apply fresh_cell_not_in.
  assert (Hlrh : h_cells h !! lr = None).
  { destruct (h_cells h !! lr) eqn:E; [|reflexivity]. simpl in Hlrn.
    rewrite lookup_insert_ne in Hlrn; [congruence|]. intros E2. rewrite <- E2 in E. congruence. }
  assert (Hext : forall l, is_Some (h_cells h !! l) -> is_Some (h_cells h1 !! l)).
  { intros l [c Hc]. simpl. rewrite lookup_insert_ne by (intros E; rewrite <- E in Hc; congruence).
    rewrite lookup_insert_ne by (intros E; rewrite <- E in Hc; congruence). eauto. }
  assert (Eset : Spreadsheet_iloc_set s (CVCell lc) pr pc hc = Ok (s1, h1)).
  { unfold Spreadsheet_iloc_set, Spreadsheet__set_item. rewrite !not_integral_int. cbn [orb].
    erewrite bind_Ok.
    2:{ erewrite bind_Ok; [|unfold get_cell; simpl; rewrite lookup_insert_eq; reflexivity].
        cbn [Cell_anchored row cA]. unfold Cell_reference.
        erewrite bind_Ok; [|unfold get_cell; simpl; rewrite lookup_insert_eq; reflexivity].
        cbn [Cell_anchored negb row cA]. apply Cell_new_ok. tauto. }
    fold lr. 
    assert (Hx : (- Z.of_nat (length (_sheet s)) <= pr < Z.of_nat (length (_sheet s)))%Z) by lia.
    assert (Hy : (- Z.of_nat (length r) <= pc < Z.of_nat (length r))%Z) by lia.
    unfold bind, lift. rewrite (py_norm_index_int _ _ Hx).
    destruct (py_getitem_int_ok _ _ Hx) as (r' & Hr' & Er'). rewrite Er'.
    rewrite Z.mod_small in Hr' by lia. rewrite Hr in Hr'. injection Hr' as <-.
    unfold py_setitem. rewrite (py_norm_index_int _ _ Hy).
    rewrite !Z.mod_small by lia. reflexivity. }
  assert (Eshape : Spreadsheet_shape s1 h1 = Ok ((R, C), h1)).
  { unfold Spreadsheet_shape, bind, get_ci. simpl. unfold ci. rewrite Hci. reflexivity. }
  assert (HR1 : length (_sheet s1) = R) by (simpl; rewrite length_insert; exact HR).
  assert (HC1 : Forall (fun r => length r = C) (_sheet s1)).
  { simpl. apply Forall_insert; [exact HC|]. rewrite length_insert. exact Hlr. }
  assert (Hlive1 : Forall (Forall (fun l => is_Some (h_cells h1 !! l))) (_sheet s1)).
  { simpl. apply Forall_insert.
    - eapply Forall_impl; [exact Hlive|]. intros row Hrow.
      eapply Forall_impl; [exact Hrow|]. exact Hext.
    - apply Forall_insert.
      + exact (Forall_impl _ _ _ (proj1 (Forall_lookup _ _) Hlive _ _ Hr) Hext).
      + simpl. rewrite lookup_insert_eq. eauto. }
  assert (Hstart : Spreadsheet__delete_single_cell s pr pc h =
    (do_ foldM (fun _ row =>
         foldM (fun _ col =>
                  if (row =? pr) && (col =? pc) then ret tt else
                  do l <- Spreadsheet_iloc_at s1 row col ;
                  do set_to_update <- Cell_update_after_cell_delete l pr pc ;
                  foldM (fun _ idx =>
                           do l' <- Spreadsheet_iloc_at s1 (fst idx) (snd idx) ;
                           Cell_re_evaluate l' s1)
                        tt set_to_update)
               tt (map Z.of_nat (seq 0 C)))
      tt (map Z.of_nat (seq 0 R)) ;
     ret s1) h1).
  { unfold Spreadsheet__delete_single_cell. fold ci.
    rewrite (bind_Ok _ _ _ lc hc) by reflexivity.
    rewrite (bind_Ok _ _ _ _ _ Eset), (bind_Ok _ _ _ _ _ Eshape). reflexivity. }
  rewrite Hstart. clear Hstart Eset Eshape. clearbody R C.
  assert (Herr : forall a b, (a < R)%nat -> (b < C)%nat ->
            forall (K : list (Z * Z) -> M V unit),
            (do l <- Spreadsheet_iloc_at s1 (Z.of_nat a) (Z.of_nat b) ;
             do set_to_update <- Cell_update_after_cell_delete l pr pc ;
             K set_to_update) h1 = Err AttributeError).
  { intros a b Ha Hb K.
    destruct (iloc_at_live s1 h1 R C a b HR1 HC1 Hlive1 Ha Hb) as (l & El & Hl).
    rewrite (bind_Ok _ _ _ _ _ El). apply bind_Err.
    apply update_after_cell_delete_live, Hl. }
  split.
  - intros H2. apply bind_Err.
    destruct R as [|R']; [lia|]. destruct C as [|C']; [lia|].
    cbn [seq map foldM].
    destruct (decide (pr = 0 /\ pc = 0)%Z) as [[-> ->]|Hne].
    + destruct C' as [|C''].
      * erewrite bind_Ok; [|reflexivity].
        destruct R' as [|R'']; [lia|]. cbn [seq map foldM].
        apply bind_Err. apply bind_Err.
        replace ((Z.of_nat 1 =? 0) && (Z.of_nat 0 =? 0))%Z with false by reflexivity.
        apply Herr; lia.
      * apply bind_Err. erewrite bind_Ok; [|reflexivity].
        cbn [seq map foldM]. apply bind_Err.
        replace ((Z.of_nat 0 =? 0) && (Z.of_nat 1 =? 0))%Z with false by reflexivity.
        apply Herr; lia.
    + apply bind_Err. apply bind_Err.
      replace ((Z.of_nat 0 =? pr) && (Z.of_nat 0 =? pc))%Z with false.
      { apply Herr; lia. }
      symmetry. apply andb_false_iff.
      destruct (Z.eqb_spec (Z.of_nat 0) pr); [|left; reflexivity].
      destruct (Z.eqb_spec (Z.of_nat 0) pc); [|right; reflexivity]. lia.
  - intros -> ->. assert (pr = 0 /\ pc = 0)%Z as [-> ->] by lia.
    exists s1, h1, lr. split; [reflexivity|].
    split.
    { unfold slot. simpl. rewrite list_lookup_insert_eq by lia. simpl.
      rewrite list_lookup_insert_eq by lia. reflexivity. }
    split; [exact Hlrh|]. simpl. apply lookup_insert_eq.
Qed.

End DeleteSingleCell.

Section FreeResults.
Context {V : Type} `{PyArith V} `{NpUfunc V} `{NpReduce V}.
Implicit Types (h : heap V).

Lemma Cell_new_free_ok (v : option V) (ci : loc) (ct : celltype) (w : fragment V) h l h' :
  Cell_new None None v ci ct (Some w) h = Ok (l, h') ->
  exists c, h_cells h' !! l = Some c /\ row c = None.
Proof.
  rewrite Cell_new_ok by tauto. intros E. injection E as <- <-.
  eexists. split; [simpl; apply lookup_insert_eq|reflexivity].
Qed.

Lemma Cell_reference_free h l :
  (exists c, h_cells h !! l = Some c /\ row c = None) ->
  Cell_reference l h = Err ValueError.
Proof.
  intros (c & Hc & Hr). unfold Cell_reference.
  erewrite bind_Ok; [|unfold get_cell; rewrite Hc; reflexivity].
  unfold Cell_anchored. rewrite Hr. reflexivity.
Qed.

(** Every result of a [Cell] operation ([reference], [brackets],
    [logarithm], [exponential], the binary operations and the
    aggregations) is a Free cell, so [Cell.reference] applied to it raises
    ValueError: references can only be taken to grid cells, never to an
    intermediate result. *)
Theorem Cell_reference_of_result_ValueError h h' (l l' : loc) :
  (Cell_reference l h = Ok (l', h') \/ Cell_brackets l h = Ok (l', h') \/
   Cell_logarithm l h = Ok (l', h') \/ Cell_exponential l h = Ok (l', h') \/
   (exists op l2, Cell_binary op l l2 h = Ok (l', h')) \/
   (exists st en subset op, Cell__aggregate_fun st en subset op h = Ok (l', h'))) ->
  Cell_reference l' h' = Err ValueError.
Proof.
  intros Hres. apply Cell_reference_free.
  destruct Hres as [E|[E|[E|[E|[(op & l2 & E)|(st & en & subset & op & E)]]]]];
    [unfold Cell_reference in E|unfold Cell_brackets in E|unfold Cell_logarithm in E
    |unfold Cell_exponential in E|unfold Cell_binary in E|unfold Cell__aggregate_fun in E];
    unfold bind, lift, get_cell, raise in E;
    repeat (case_match; try discriminate);
    eapply Cell_new_free_ok; exact E.
Qed.

End FreeResults.

(** ** Witnesses of the further properties *)

Lemma Spreadsheet_delete_row_outcomes_witness :
  h_cis heap_grid22 !! _cell_indices sheet_grid22 = Some ci22 /\
  Spreadsheet_delete_row (fun _ => ret 1) sheet_grid22 (Some 1) None heap_grid22 = Err TypeError /\
  Spreadsheet_delete_row (fun _ => ret 1) sheet_grid22 (Some 2) None heap_grid22 = Err IndexError /\
  Spreadsheet_delete_row (fun _ => ret 5) sheet_grid22 None (Some "r5"%string) heap_grid22
    = Err IndexError.
Proof.
  split; [reflexivity|].
  destruct (Spreadsheet_delete_row_outcomes (fun _ => ret 1) sheet_grid22 heap_grid22 ci22
              eq_refl) as (_ & _ & H3 & _).
  destruct (Spreadsheet_delete_row_outcomes (fun _ => ret 5) sheet_grid22 heap_grid22 ci22
              eq_refl) as (_ & _ & _ & H4 & H5).
  destruct (Spreadsheet_delete_row_outcomes (fun _ => ret 1) sheet_grid22 heap_grid22 ci22
              eq_refl) as (_ & _ & _ & H4' & _).
  split; [apply H3; simpl; lia|]. split; [apply H4'; simpl; lia|].
  rewrite (H5 "r5"%string 5 heap_grid22 eq_refl). apply H4. simpl. lia.
Defined.

Lemma Spreadsheet_insert_outcomes_witness :
  Spreadsheet_insert_before (V := pyfloat) sheet_grid22 None None (Some 0) (Some "r0"%string)
    heap_grid22 = Err IndexError /\
  Spreadsheet_insert_before sheet_grid22 None None None (Some "r0"%string) heap_grid22
    = Ok (tt, heap_grid22) /\
  Spreadsheet_insert_after (fun _ => ret 1) sheet_grid22 None None None (Some "r1"%string)
    heap_grid22 = Ok (tt, heap_grid22).
Proof.
  destruct (Spreadsheet_insert_outcomes (fun _ => ret 1) sheet_grid22 heap_grid22 None None)
    as (H1 & H2 & _ & _ & H5).
  split; [exact (proj1 (H1 0 "r0"%string))|].
  split; [apply H2; left; reflexivity|].
  exact (H5 "r1"%string _ eq_refl).
Defined.

Lemma Spreadsheet__set_item_float_TypeError_witness :
  not_integral (PFloat 1) = false /\
  Spreadsheet__set_item sheet_grid22 (CVNumber (qf 5)) (PFloat 1) (PInt 0) heap_grid22
    = Err TypeError /\
  Spreadsheet__set_item sheet_grid22 (CVNumber (qf 5)) (PInt 1) (PFloat 0) heap_grid22
    = Err TypeError.
Proof.
  assert (H1 : not_integral (PFloat 1) = false) by reflexivity.
  assert (H0 : not_integral (PFloat 0) = false) by reflexivity.
  split; [exact H1|]. split.
  - apply (proj1 (Spreadsheet__set_item_float_TypeError sheet_grid22 heap_grid22 (qf 5) 1 H1)).
    reflexivity.
  - apply (proj2 (Spreadsheet__set_item_float_TypeError sheet_grid22 heap_grid22 (qf 5) 0 H0)).
    simpl. lia.
Defined.

Lemma Spreadsheet__set_item_number_int_witness :
  exists s' h' l,
    Spreadsheet__set_item sheet_grid22 (CVNumber (qf 5)) (PInt (-1)) (PInt 0) heap_grid22
      = Ok (s', h') /\
    slot s' 1 0 = Some l /\
    h_cells h' !! l = Some (mkCell (Some (PInt (-1))) (Some (PInt 0)) (Some (qf 5)) value_only
                                  0%nat (FConst (Some (qf 5)))) /\
    Spreadsheet__get_item s' (PInt (-1)) (PInt 0) h' = Ok (l, h').
Proof.
  destruct (Spreadsheet__set_item_number_int sheet_grid22 heap_grid22 2 2 (qf 5) (-1) 0
              eq_refl ltac:(repeat constructor) ltac:(simpl; lia) ltac:(simpl; lia))
    as (s' & h' & l & E & Hs & _ & Hc & Hg).
  exists s', h', l. split; [exact E|]. split; [exact Hs|]. split; [exact Hc|exact Hg].
Defined.

Lemma Spreadsheet__get_slice_cells_witness :
  exists cells,
    Spreadsheet__get_slice sheet_grid22 0 2 1 1 2 1 heap_grid22
      = Ok (mkCellSlice (0, 1) (1, 1) cells sheet_grid22, heap_grid22) /\
    Forall2 (fun p l => slot sheet_grid22 (Z.to_nat p.1) (Z.to_nat p.2) = Some l)
            [(0, 1); (1, 1)] cells.
Proof.
  apply (Spreadsheet__get_slice_cells sheet_grid22 heap_grid22 0 2 1 1 2 1 [0; 1] [1]).
  - reflexivity.
  - reflexivity.
  - repeat constructor; lia.
  - repeat constructor; lia.
  - intros x y Hx Hy. destruct Hx as [<-|[<-|[]]]; destruct Hy as [<-|[]];
      eexists; reflexivity.
Defined.

Lemma Spreadsheet__get_slice_steps_witness :
  Spreadsheet__get_slice sheet_grid22 0 2 0 0 2 1 heap_grid22 = Err ValueError /\
  Spreadsheet__get_slice sheet_grid22 2 0 1 0 2 0 heap_grid22
    = Ok (mkCellSlice (2, 0) (-1, 1) [] sheet_grid22, heap_grid22) /\
  Spreadsheet__get_slice sheet_grid22 0 2 1 0 2 0 heap_grid22 = Err ValueError.
Proof.
  destruct (Spreadsheet__get_slice_steps sheet_grid22 heap_grid22 0 2 0 0 2 1) as (H1 & _).
  destruct (Spreadsheet__get_slice_steps sheet_grid22 heap_grid22 2 0 1 0 2 0) as (_ & H2 & _).
  destruct (Spreadsheet__get_slice_steps sheet_grid22 heap_grid22 0 2 1 0 2 0) as (_ & _ & H3).
  split; [exact (H1 eq_refl)|]. split; [exact (H2 eq_refl)|].
  exact (H3 0 [1] eq_refl eq_refl).
Defined.

Lemma Spreadsheet___init___grid_witness :
  exists s h', Spreadsheet___init__ 0%nat heap0 = Ok (s, h') /\
    length (_sheet s) = 2%nat /\
    exists l, slot s 1 0 = Some l /\
      h_cells h' !! l = Some (mkCell (Some (PInt 1)) (Some (PInt 0)) None value_only
                                     (_cell_indices s) (FRef (Some (PInt 1)) (Some (PInt 0)))).
Proof.
  destruct (Spreadsheet___init___grid 0%nat ci22 heap0 eq_refl)
    as (s & h' & E & _ & Hl & _ & Hs & _).
  exists s, h'. split; [exact E|]. split; [exact Hl|].
  destruct (Hs 1%nat 0%nat ltac:(simpl; lia) ltac:(simpl; lia)) as (l & Hsl & _ & Hc).
  exists l. split; [exact Hsl|exact Hc].
Defined.

Lemma Spreadsheet__set_item_frame_witness :
  exists s' h',
    Spreadsheet__set_item sheet_grid22 (CVCell 0%nat) (PInt 1) (PInt 1) heap_grid22
      = Ok (s', h') /\
    _cell_indices s' = _cell_indices sheet_grid22 /\
    (forall l c, h_cells heap_grid22 !! l = Some c -> h_cells h' !! l = Some c).
Proof.
  destruct (Spreadsheet__set_item sheet_grid22 (CVCell 0%nat) (PInt 1) (PInt 1) heap_grid22)
    as [[s' h']|e] eqn:E; [|vm_compute in E; discriminate].
  destruct (Spreadsheet__set_item_frame sheet_grid22 (CVCell 0%nat) (PInt 1) (PInt 1)
              heap_grid22 s' h' E) as (Hci & _ & Hc & _).
  exists s', h'. split; [reflexivity|]. split; [exact Hci|exact Hc].
Defined.

Lemma Cell_brackets_spec_witness :
  Cell_brackets 1%nat heap_grid22 =
    Ok (fresh (dom (h_cells heap_grid22)),
        mkHeap (<[fresh (dom (h_cells heap_grid22)) :=
                   mkCell None None None computational 0%nat
                          (FBrackets (FRef (Some (PInt 0)) (Some (PInt 1))))]>
                  (h_cells heap_grid22)) (h_cis heap_grid22)) /\
  Cell_logarithm 1%nat heap_grid22 = Err TypeError.
Proof.
  destruct (Cell_brackets_spec heap_grid22 1%nat (grid_cell 0 1) eq_refl) as (E & _ & Hlog).
  split; [exact E|]. exact (Hlog eq_refl).
Defined.

Lemma Spreadsheet_expand_using_cell_indices_keeps_rows_witness :
  exists s' h',
    Spreadsheet_expand_using_cell_indices sheet_grid22 1%nat
      heap_grid22_ci12 = Ok (s', h') /\
    Spreadsheet_shape s' h' = Ok ((1, 2)%nat, h') /\
    length (_sheet s') = 2%nat /\
    _sheet s' !! 1%nat = Some [2%nat; 3%nat].
Proof.
  destruct (Spreadsheet_expand_using_cell_indices_keeps_rows sheet_grid22 heap_grid22_ci12
              1%nat ci22 ci12 eq_refl eq_refl eq_refl
              ltac:(repeat constructor)
              ltac:(vm_compute; repeat constructor; eexists; reflexivity)
              ltac:(simpl; lia))
    as (s' & h' & E & Hsh & Hl & Hk).
  exists s', h'. split; [exact E|]. split; [exact Hsh|]. split; [exact Hl|].
  exact (Hk 1%nat ltac:(simpl; lia)).
Defined.

Lemma Spreadsheet__delete_single_cell_outcomes_witness :
  Spreadsheet__delete_single_cell sheet_grid22 0 1 heap_grid22 = Err AttributeError /\
  exists s' h' l,
    Spreadsheet__delete_single_cell sheet_one 0 0 heap_one = Ok (s', h') /\
    slot s' 0 0 = Some l /\
    h_cells h' !! l = Some (mkCell None None None computational 0%nat
                                   (FRef (Some (PInt 0)) (Some (PInt 0)))).
Proof.
  split.
  - apply (proj1 (Spreadsheet__delete_single_cell_outcomes sheet_grid22 heap_grid22 ci22 0 1
             eq_refl eq_refl ltac:(repeat constructor)
             ltac:(vm_compute; repeat constructor; eexists; reflexivity)
             ltac:(simpl; lia) ltac:(simpl; lia))).
    simpl. lia.
  - destruct (proj2 (Spreadsheet__delete_single_cell_outcomes sheet_one heap_one ci11 0 0
             eq_refl eq_refl ltac:(repeat constructor)
             ltac:(vm_compute; repeat constructor; eexists; reflexivity)
             ltac:(simpl; lia) ltac:(simpl; lia)) eq_refl eq_refl)
      as (s' & h' & l & E & Hs & _ & Hc).
    exists s', h', l. split; [exact E|]. split; [exact Hs|exact Hc].
Defined.

Lemma Cell_reference_of_result_ValueError_witness :
  exists l' h', Cell_brackets 0%nat heap_anchored = Ok (l', h') /\
                Cell_reference l' h' = Err ValueError.
Proof.
  destruct (Cell_brackets 0%nat heap_anchored) as [[l' h']|e] eqn:E;
    [|vm_compute in E; discriminate].
  exists l', h'. split; [reflexivity|].
  apply (Cell_reference_of_result_ValueError heap_anchored h' 0%nat l').
  right. left. exact E.
Defined.
